(** * Motion-metrics engine of sai-talent-assessment

    A shallow embedding of [pose_processor.py] (class [PoseProcessor]) and of
    the routes of [app.py] that drive it, followed by the properties of the
    engine.

    Python floats are read as real numbers: every arithmetic operation is the
    exact operation on [R], comparisons are the order of [R], and [int(..)]
    is truncation toward zero.  The rounding of binary64 is outside this
    reading; where a property of the repetition methods must not depend
    on it, the angles are taken as measured values.  Dictionaries with a
    fixed set of literal keys
    ([self.counters] and each per-exercise counter) are records; the metrics
    dictionary handed back to the caller is an association list from metric
    name to value. *)

From Stdlib Require Import Reals Lra Lia ZArith List String Bool.
Import ListNotations.

Open Scope R_scope.

(** ** Numeric primitives used by the source *)

Module Py.

(** Python's [a < b] on floats, as a boolean. *)
Definition ltb (a b : R) : bool := if Rlt_dec a b then true else false.

(** Python's [int(x)] on a float: truncation toward zero. *)
Definition int (v : R) : Z :=
  if Rle_dec 0 v then Zfloor v else (- Zfloor (- v))%Z.

(** [np.arctan2(dy, dx)]: the angle of the ray from the origin through
    [(dx, dy)], in the interval (-PI, PI]; [arctan2(0, 0)] is [0]. *)
Definition arctan2 (dy dx : R) : R :=
  if Rlt_dec 0 dx then atan (dy / dx)
  else if Rlt_dec dx 0 then
         (if Rle_dec 0 dy then atan (dy / dx) + PI else atan (dy / dx) - PI)
  else if Rlt_dec 0 dy then PI / 2
  else if Rlt_dec dy 0 then - (PI / 2)
  else 0.

(** Truthiness of an optional string: [None] and the empty string are
    falsy. *)
Definition truthy (s : option string) : bool :=
  match s with
  | None => false
  | Some EmptyString => false
  | Some _ => true
  end.

(** [s == lit] where [s] may be [None]. *)
Definition str_eq (s : option string) (lit : string) : bool :=
  match s with
  | Some v => String.eqb v lit
  | None => false
  end.

End Py.

(** ** Metrics records *)

(** The values the source puts into a metrics dictionary: Python ints,
    strs, and the [numpy.bool_] that comparing a numpy float leaves (the
    only boolean the source stores, [in_position] of the plank). *)
Inductive MetricValue : Type :=
| MInt (n : Z)
| MStr (s : string)
| MBool (b : bool).

(** A metrics dictionary, in the order the source writes its keys. *)
Definition Metrics : Type := list (string * MetricValue).

Fixpoint metric (m : Metrics) (key : string) : option MetricValue :=
  match m with
  | [] => None
  | (k, v) :: rest => if String.eqb k key then Some v else metric rest key
  end.

(** ** pose_processor.py *)

Module PoseProcessor.

(** One MediaPipe landmark; only the normalised image coordinates are
    read by the source. *)
Record Landmark : Type := mkLandmark { x : R; y : R }.

(** [results.pose_landmarks.landmark], indexed by landmark number. *)
Definition Landmarks : Type := nat -> Landmark.

(** A captured frame: its [shape] as [(h, w)], what the pose model finds
    in it ([None] when no person is detected), and whether the skeleton
    overlay has been drawn onto it. *)
Record Frame : Type := mkFrame {
  shape : Z * Z;
  pose_landmarks : option Landmarks;
  overlay : bool
}.

(** [{'count': .., 'direction': ..}] *)
Record RepCounter : Type := mkRep { count : R; direction : Z }.

(** [{'start_time': .., 'elapsed': .., 'total': ..}] *)
Record PlankCounter : Type := mkPlank {
  start_time : option R;
  elapsed : R;
  total : R
}.

(** [{'baseline': .., 'max_height': .., 'jumps': ..}] *)
Record JumpCounter : Type := mkJump {
  baseline : option R;
  max_height : R;
  jumps : Z
}.

(** [self.counters] *)
Record Counters : Type := mkCounters {
  jumping_jacks : RepCounter;
  push_ups : RepCounter;
  sit_ups : RepCounter;
  plank : PlankCounter;
  vertical_jump : JumpCounter
}.

(** The counters built by [__init__]. *)
Definition init : Counters :=
  mkCounters (mkRep 0 0) (mkRep 0 0) (mkRep 0 0)
             (mkPlank None 0 0) (mkJump None 0 0).

Definition set_jumping_jacks (self : Counters) (c : RepCounter) : Counters :=
  mkCounters c (push_ups self) (sit_ups self) (plank self) (vertical_jump self).
Definition set_push_ups (self : Counters) (c : RepCounter) : Counters :=
  mkCounters (jumping_jacks self) c (sit_ups self) (plank self) (vertical_jump self).
Definition set_sit_ups (self : Counters) (c : RepCounter) : Counters :=
  mkCounters (jumping_jacks self) (push_ups self) c (plank self) (vertical_jump self).
Definition set_plank (self : Counters) (c : PlankCounter) : Counters :=
  mkCounters (jumping_jacks self) (push_ups self) (sit_ups self) c (vertical_jump self).
Definition set_vertical_jump (self : Counters) (c : JumpCounter) : Counters :=
  mkCounters (jumping_jacks self) (push_ups self) (sit_ups self) (plank self) c.

(** What every [process_*] method returns, next to the updated counters. *)
Definition Output : Type := (Frame * Metrics)%type.

(** A pixel-space point [[px, py]]. *)
Definition Point : Type := (R * R)%type.

(** [calculate_angle] in exact arithmetic.  The running program rounds
    every operation to binary64, so the value it returns can differ from
    this one in the last places; properties that need the exact value
    (an equality of two angles, an angle exactly on a threshold) are
    properties of this idealisation only. *)
Definition calculate_angle (a b c : Point) : R :=
  let radians := Py.arctan2 (snd c - snd b) (fst c - fst b)
                 - Py.arctan2 (snd a - snd b) (fst a - fst b) in
  let angle := Rabs (radians * 180 / PI) in
  if Py.ltb 180 angle then 360 - angle else angle.

(** The two-phase counting step shared by the repetition exercises:
    [down] is the condition of the first branch, [up] the condition under
    which the second branch is tried. *)
Definition count_logic (counter : RepCounter) (down up : bool) : RepCounter :=
  if down then
    if (direction counter =? 0)%Z
    then mkRep (count counter + 0.5) 1
    else counter
  else if up then
    if (direction counter =? 1)%Z
    then mkRep (count counter + 0.5) 0
    else counter
  else counter.

Definition process_jumping_jacks
    (self : Counters) (frame : Frame) (landmarks : Landmarks) (w h : Z)
    : Counters * Output :=
  let counter := jumping_jacks self in
  let left_wrist := landmarks 15%nat in
  let right_wrist := landmarks 16%nat in
  let left_shoulder := landmarks 11%nat in
  let right_shoulder := landmarks 12%nat in
  let left_hip := landmarks 23%nat in
  let right_hip := landmarks 24%nat in
  let arms_up := Py.ltb (y left_wrist) (y left_shoulder)
                 && Py.ltb (y right_wrist) (y right_shoulder) in
  let hip_distance := Rabs (x right_hip - x left_hip) * IZR w in
  let legs_spread := Py.ltb 100 hip_distance in
  let counter' := count_logic counter (arms_up && legs_spread) true in
  let metrics :=
    [ ("count"%string, MInt (Py.int (count counter')));
      ("form_score"%string, MInt (if arms_up && legs_spread then 95 else 70));
      ("status"%string, MStr (if arms_up then "Up" else "Down")) ] in
  (set_jumping_jacks self counter', (frame, metrics)).

Definition process_push_ups
    (self : Counters) (frame : Frame) (landmarks : Landmarks) (w h : Z)
    : Counters * Output :=
  let counter := push_ups self in
  let shoulder := (x (landmarks 11%nat) * IZR w, y (landmarks 11%nat) * IZR h) in
  let elbow := (x (landmarks 13%nat) * IZR w, y (landmarks 13%nat) * IZR h) in
  let wrist := (x (landmarks 15%nat) * IZR w, y (landmarks 15%nat) * IZR h) in
  let arm_angle := calculate_angle shoulder elbow wrist in
  let hip := (x (landmarks 23%nat) * IZR w, y (landmarks 23%nat) * IZR h) in
  let knee := (x (landmarks 25%nat) * IZR w, y (landmarks 25%nat) * IZR h) in
  let body_angle := calculate_angle shoulder hip knee in
  let counter' :=
    count_logic counter (Py.ltb arm_angle 90) (Py.ltb 160 arm_angle) in
  let metrics :=
    [ ("count"%string, MInt (Py.int (count counter')));
      ("arm_angle"%string, MInt (Py.int arm_angle));
      ("body_angle"%string, MInt (Py.int body_angle));
      ("form_score"%string,
        MInt (if Py.ltb 160 body_angle && Py.ltb body_angle 190
              then 100 else 70)) ] in
  (set_push_ups self counter', (frame, metrics)).

Definition process_sit_ups
    (self : Counters) (frame : Frame) (landmarks : Landmarks) (w h : Z)
    : Counters * Output :=
  let counter := sit_ups self in
  let shoulder := (x (landmarks 11%nat) * IZR w, y (landmarks 11%nat) * IZR h) in
  let hip := (x (landmarks 23%nat) * IZR w, y (landmarks 23%nat) * IZR h) in
  let knee := (x (landmarks 25%nat) * IZR w, y (landmarks 25%nat) * IZR h) in
  let angle := calculate_angle shoulder hip knee in
  let counter' :=
    count_logic counter (Py.ltb angle 90) (Py.ltb 150 angle) in
  let metrics :=
    [ ("count"%string, MInt (Py.int (count counter')));
      ("angle"%string, MInt (Py.int angle));
      ("status"%string, MStr (if Py.ltb angle 90 then "Up" else "Down")) ] in
  (set_sit_ups self counter', (frame, metrics)).

(** The values [time.time()] returns while one frame is processed: the
    first call reads [t1]; a second call, made only on the frame that
    starts a hold, reads [t2]. *)
Record Clock : Type := mkClock { t1 : R; t2 : R }.

Definition process_plank
    (self : Counters) (frame : Frame) (landmarks : Landmarks) (w h : Z)
    (time : Clock) : Counters * Output :=
  let counter := plank self in
  let shoulder := (x (landmarks 11%nat) * IZR w, y (landmarks 11%nat) * IZR h) in
  let hip := (x (landmarks 23%nat) * IZR w, y (landmarks 23%nat) * IZR h) in
  let ankle := (x (landmarks 27%nat) * IZR w, y (landmarks 27%nat) * IZR h) in
  let body_angle := calculate_angle shoulder hip ankle in
  let in_plank := Py.ltb 160 body_angle && Py.ltb body_angle 190 in
  let counter' :=
    if in_plank then
      match start_time counter with
      | None => mkPlank (Some (t1 time)) (t2 time - t1 time) (total counter)
      | Some s => mkPlank (Some s) (t1 time - s) (total counter)
      end
    else
      match start_time counter with
      | Some _ => mkPlank None 0 (total counter + elapsed counter)
      | None => counter
      end in
  let current_hold := if in_plank then elapsed counter' else 0 in
  let metrics :=
    [ ("current_hold"%string, MInt (Py.int current_hold));
      ("total_time"%string, MInt (Py.int (total counter')));
      ("body_angle"%string, MInt (Py.int body_angle));
      ("in_position"%string, MBool in_plank) ] in
  (set_plank self counter', (frame, metrics)).

Definition process_vertical_jump
    (self : Counters) (frame : Frame) (landmarks : Landmarks) (w h : Z)
    : Counters * Output :=
  let counter := vertical_jump self in
  let hip_y := (y (landmarks 23%nat) + y (landmarks 24%nat)) / 2 * IZR h in
  let base := match baseline counter with
              | None => hip_y
              | Some b => b
              end in
  let jump_height := base - hip_y in
  let counter' :=
    if Py.ltb 20 jump_height then
      if Py.ltb (max_height counter) jump_height
      then mkJump (Some base) jump_height (jumps counter)
      else mkJump (Some base) (max_height counter) (jumps counter)
    else if Py.ltb jump_height 10 && Py.ltb 20 (max_height counter)
    then mkJump (Some base) 0 (jumps counter + 1)
    else mkJump (Some base) (max_height counter) (jumps counter) in
  let metrics :=
    [ ("current_height"%string, MInt (Py.int jump_height));
      ("max_height"%string, MInt (Py.int (max_height counter')));
      ("jump_count"%string, MInt (jumps counter')) ] in
  (set_vertical_jump self counter', (frame, metrics)).

(** [process_frame]: the pose model's answer for the frame is the frame's
    [pose_landmarks]; when it is present the overlay is drawn and the
    frame is handed to the method of the named exercise. *)
Definition process_frame
    (self : Counters) (frame : Frame) (exercise : string) (time : Clock)
    : Counters * Output :=
  match pose_landmarks frame with
  | Some landmarks =>
      let frame := mkFrame (shape frame) (pose_landmarks frame) true in
      let '(h, w) := shape frame in
      if String.eqb exercise "jumping_jacks" then
        process_jumping_jacks self frame landmarks w h
      else if String.eqb exercise "push_ups" then
        process_push_ups self frame landmarks w h
      else if String.eqb exercise "sit_ups" then
        process_sit_ups self frame landmarks w h
      else if String.eqb exercise "plank" then
        process_plank self frame landmarks w h time
      else if String.eqb exercise "vertical_jump" then
        process_vertical_jump self frame landmarks w h
      else (self, (frame, []))
  | None => (self, (frame, []))
  end.

Definition reset_counter (self : Counters) (exercise : option string)
    : Counters :=
  if Py.str_eq exercise "jumping_jacks" then
    set_jumping_jacks self (mkRep 0 0)
  else if Py.str_eq exercise "push_ups" then
    set_push_ups self (mkRep 0 0)
  else if Py.str_eq exercise "sit_ups" then
    set_sit_ups self (mkRep 0 0)
  else if Py.str_eq exercise "plank" then
    set_plank self (mkPlank None 0 0)
  else if Py.str_eq exercise "vertical_jump" then
    set_vertical_jump self (mkJump None 0 0)
  else self.

End PoseProcessor.

(** ** app.py *)

Module App.

Import PoseProcessor.

(** One value of [session_data['exercises']]. *)
Record SessionEntry : Type := mkEntry {
  metrics : Metrics;
  timestamp : string
}.

(** The module-level globals the routes share.  [session_exercises] is
    [session_data['exercises']], a dictionary keyed by exercise name. *)
Record Globals : Type := mkGlobals {
  pose_processor : Counters;
  current_exercise : option string;
  session_exercises : string -> option SessionEntry
}.

(** The globals when the module has just been loaded. *)
Definition start : Globals :=
  mkGlobals PoseProcessor.init None (fun _ => None).

Definition dict_set {V : Type} (d : string -> option V) (k : string) (v : V)
    : string -> option V :=
  fun k' => if String.eqb k' k then Some v else d k'.

(** One iteration of the loop of [generate_frames] on a frame read from
    the camera (already mirrored); [now] is [datetime.now().isoformat()]
    and [time] the readings of [time.time()]. *)
Definition generate_frames_step
    (g : Globals) (frame : Frame) (now : string) (time : Clock)
    : Globals * Frame :=
  match current_exercise g with
  | Some exercise =>
      if Py.truthy (current_exercise g) then
        let '(self, (frame, m)) :=
          process_frame (pose_processor g) frame exercise time in
        (mkGlobals self (current_exercise g)
                   (dict_set (session_exercises g) exercise (mkEntry m now)),
         frame)
      else (g, frame)
  | None => (g, frame)
  end.

(** The JSON body answered by [set_exercise]. *)
Record SetExerciseResponse : Type := mkSetResp {
  set_status : string;
  set_exercise_name : option string
}.

(** [set_exercise]; [requested] is [request.json.get('exercise')]. *)
Definition set_exercise (g : Globals) (requested : option string)
    : Globals * SetExerciseResponse :=
  let g := mkGlobals (reset_counter (pose_processor g) requested)
                     requested (session_exercises g) in
  (g, mkSetResp "success" (current_exercise g)).

(** The JSON body answered by [get_metrics]. *)
Record MetricsResponse : Type := mkMetricsResp {
  resp_exercise : option string;
  resp_metrics : Metrics;
  resp_timestamp : option string
}.

(** What a route hands back: the body [jsonify] built, or the
    [TypeError] it raised (answered as HTTP 500). *)
Inductive Reply (A : Type) : Type :=
| Answer (body : A)
| TypeError.

Arguments Answer {A} body.
Arguments TypeError {A}.

(** [jsonify] serialises ints, strs and [None]; a [numpy.bool_] is not
    JSON serialisable. *)
Definition serialisable (m : Metrics) : bool :=
  forallb (fun kv => match snd kv with
                     | MBool _ => false
                     | _ => true
                     end) m.

Definition jsonify (body : MetricsResponse) : Reply MetricsResponse :=
  if serialisable (resp_metrics body) then Answer body else TypeError.

Definition get_metrics (g : Globals) (now : string)
    : Reply MetricsResponse :=
  match current_exercise g with
  | Some exercise =>
      if Py.truthy (current_exercise g) then
        match session_exercises g exercise with
        | Some entry =>
            jsonify (mkMetricsResp (Some exercise) (metrics entry) (Some now))
        | None => jsonify (mkMetricsResp None [] None)
        end
      else jsonify (mkMetricsResp None [] None)
  | None => jsonify (mkMetricsResp None [] None)
  end.

(** [reset_exercise]; the answer is always [{'status': 'success'}]. *)
Definition reset_exercise (g : Globals) : Globals * string :=
  let g := if Py.truthy (current_exercise g)
           then mkGlobals (reset_counter (pose_processor g) (current_exercise g))
                          (current_exercise g) (session_exercises g)
           else g in
  (g, "success"%string).

End App.

(** ** Vocabulary of the properties *)

Module Geometry.

Import PoseProcessor.

(** Left-right reflection of a point, and uniform scaling about the
    origin. *)
Definition mirror (p : Point) : Point := (- fst p, snd p).
Definition scale (k : R) (p : Point) : Point := (k * fst p, k * snd p).

(** The last two statements of [calculate_angle], on the signed angle in
    degrees: absolute value, then the fold of values over 180. *)
Definition fold180 (d : R) : R :=
  if Py.ltb 180 (Rabs d) then 360 - Rabs d else Rabs d.

End Geometry.

Module Trace.

Import PoseProcessor.

(** What a [process_*] method receives for one frame. *)
Record Sample : Type := mkSample {
  s_frame : Frame;
  s_landmarks : Landmarks;
  s_w : Z;
  s_h : Z
}.

(** Feeding inputs to a step in chronological order; the metrics record
    of every frame is collected, oldest first. *)
Fixpoint run {A : Type} (step : Counters -> A -> Counters * Output)
    (self : Counters) (inputs : list A) : Counters * list Metrics :=
  match inputs with
  | [] => (self, [])
  | i :: rest =>
      let r := step self i in
      let rs := run step (fst r) rest in
      (fst rs, snd (snd r) :: snd rs)
  end.

(** *** Jumping jacks *)

Definition jumping_jacks_step (self : Counters) (s : Sample)
    : Counters * Output :=
  process_jumping_jacks self (s_frame s) (s_landmarks s) (s_w s) (s_h s).

(** The jumping-jacks predicate of a sample: [arms_up and legs_spread]. *)
Definition jj_open (s : Sample) : bool :=
  let landmarks := s_landmarks s in
  (Py.ltb (y (landmarks 15%nat)) (y (landmarks 11%nat))
   && Py.ltb (y (landmarks 16%nat)) (y (landmarks 12%nat)))
  && Py.ltb 100 (Rabs (x (landmarks 24%nat) - x (landmarks 23%nat))
                 * IZR (s_w s)).

Definition jj_closed (s : Sample) : bool := negb (jj_open s).

(** One full cycle: at least one frame with the predicate true, then at
    least one frame with the predicate false. *)
Record Cycle : Type := mkCycle {
  open_first : Sample;
  open_rest : list Sample;
  closed_first : Sample;
  closed_rest : list Sample
}.

Definition cycle_samples (c : Cycle) : list Sample :=
  (open_first c :: open_rest c) ++ (closed_first c :: closed_rest c).

Definition is_cycle (c : Cycle) : bool :=
  forallb jj_open (open_first c :: open_rest c)
  && forallb jj_closed (closed_first c :: closed_rest c).

(** *** Plank *)

(** A plank frame: the sample and the clock readings taken while it is
    processed. *)
Definition Timed : Type := (Sample * Clock)%type.

Definition plank_step (self : Counters) (i : Timed) : Counters * Output :=
  process_plank self (s_frame (fst i)) (s_landmarks (fst i))
                (s_w (fst i)) (s_h (fst i)) (snd i).

(** The body angle [process_plank] computes for a sample, and its test
    [160 < body_angle < 190]. *)
Definition plank_angle (s : Sample) : R :=
  let landmarks := s_landmarks s in
  calculate_angle
    (x (landmarks 11%nat) * IZR (s_w s), y (landmarks 11%nat) * IZR (s_h s))
    (x (landmarks 23%nat) * IZR (s_w s), y (landmarks 23%nat) * IZR (s_h s))
    (x (landmarks 27%nat) * IZR (s_w s), y (landmarks 27%nat) * IZR (s_h s)).

Definition in_plank (i : Timed) : bool :=
  Py.ltb 160 (plank_angle (fst i)) && Py.ltb (plank_angle (fst i)) 190.


(** One in-position interval with the frames that follow it: the frame
    on which the position is entered, the further frames in position,
    the frame on which it is left, and the further frames out of
    position. *)
Record Interval : Type := mkInterval {
  entry : Timed;
  holding : list Timed;
  leave : Timed;
  resting : list Timed
}.

Definition interval_inputs (iv : Interval) : list Timed :=
  (entry iv :: holding iv) ++ (leave iv :: resting iv).


(** The last clock reading taken inside the interval (the second reading
    of the entry frame when no further frame is in position, else the
    reading of the last frame in position) minus the reading at entry. *)
Definition duration (iv : Interval) : R :=
  last (map (fun i => t1 (snd i)) (holding iv)) (t2 (snd (entry iv)))
  - t1 (snd (entry iv)).

Definition sum (l : list R) : R := fold_right Rplus 0 l.

(** *** Vertical jump *)

Definition vertical_jump_step (self : Counters) (s : Sample)
    : Counters * Output :=
  process_vertical_jump self (s_frame s) (s_landmarks s) (s_w s) (s_h s).

(** The hip position [process_vertical_jump] computes for a sample, and
    its height above a baseline [b] (smaller [hip_y] is higher). *)
Definition hip_y (s : Sample) : R :=
  (y (s_landmarks s 23%nat) + y (s_landmarks s 24%nat)) / 2 * IZR (s_h s).

Definition height_above (b : R) (s : Sample) : R := b - hip_y s.

(** [lo <= v1 <= v2 <= ... <= hi] and [hi >= v1 >= v2 >= ... >= lo]. *)
Fixpoint climbs (lo hi : R) (l : list R) : Prop :=
  match l with
  | [] => lo <= hi
  | v :: rest => lo <= v /\ climbs v hi rest
  end.

Fixpoint descends (hi lo : R) (l : list R) : Prop :=
  match l with
  | [] => lo <= hi
  | v :: rest => v <= hi /\ descends v lo rest
  end.

(** A trace of one jump: a first frame standing, frames on the way up,
    the frame at the top, frames on the way down, and a frame back at
    the height of the first one. *)
Record JumpTrace : Type := mkJumpTrace {
  stand : Sample;
  rising : list Sample;
  peak : Sample;
  falling : list Sample;
  landing : Sample
}.

Definition jump_samples (t : JumpTrace) : list Sample :=
  stand t :: rising t ++ peak t :: falling t ++ [landing t].

(** The hip rises, without coming down in between, to [top] pixels above
    its position on the first frame, and returns to that position
    without going up in between. *)
Definition jump_of (top : R) (t : JumpTrace) : Prop :=
  let b := hip_y (stand t) in
  climbs 0 top (map (height_above b) (rising t))
  /\ hip_y (peak t) = b - top
  /\ descends top 0 (map (height_above b) (falling t))
  /\ hip_y (landing t) = b.

End Trace.

Module Kinds.

Import PoseProcessor.

(** The exercise names [process_frame] and [reset_counter] compare
    against. *)
Definition known_kinds : list string :=
  [ "jumping_jacks"; "push_ups"; "sit_ups"; "plank"; "vertical_jump" ]%string.

Inductive Kind : Type :=
| JumpingJacks | PushUps | SitUps | Plank | VerticalJump.

Definition kind_name (k : Kind) : string :=
  match k with
  | JumpingJacks => "jumping_jacks"
  | PushUps => "push_ups"
  | SitUps => "sit_ups"
  | Plank => "plank"
  | VerticalJump => "vertical_jump"
  end.

(** The counters with those of one kind put back to their value in
    [init] and those of every other kind kept. *)
Definition with_fresh (k : Kind) (self : Counters) : Counters :=
  match k with
  | JumpingJacks => set_jumping_jacks self (jumping_jacks init)
  | PushUps => set_push_ups self (push_ups init)
  | SitUps => set_sit_ups self (sit_ups init)
  | Plank => set_plank self (plank init)
  | VerticalJump => set_vertical_jump self (vertical_jump init)
  end.

End Kinds.

(** ** Concrete frames and sessions *)

Module Examples.

Import PoseProcessor Trace App.

(** Arms raised and hips apart: wrists at height 0, shoulders at height
    1, hips a full frame width apart. *)
Definition lm_open : Landmarks :=
  fun i => match i with
           | 11%nat | 12%nat => mkLandmark 0 1
           | 24%nat => mkLandmark 1 1
           | _ => mkLandmark 0 0
           end.

(** Every landmark on one spot. *)
Definition lm_closed : Landmarks := fun _ => mkLandmark 0 0.

Definition open_frame : Frame := mkFrame (480, 640)%Z (Some lm_open) false.
Definition closed_frame : Frame := mkFrame (480, 640)%Z (Some lm_closed) false.
Definition empty_frame : Frame := mkFrame (480, 640)%Z None false.

Definition open_sample : Sample := mkSample open_frame lm_open 640 480.
Definition closed_sample : Sample := mkSample closed_frame lm_closed 640 480.

Definition jack : Cycle := mkCycle open_sample [open_sample] closed_sample [].

(** Shoulder, hip and ankle on one horizontal line, the hip in the
    middle. *)
Definition lm_straight : Landmarks :=
  fun i => match i with
           | 23%nat => mkLandmark (1 / 2) 0
           | 27%nat => mkLandmark 1 0
           | _ => mkLandmark 0 0
           end.

Definition straight_at (a b : R) : Timed :=
  (mkSample (mkFrame (480, 640)%Z (Some lm_straight) true) lm_straight 640 480,
   mkClock a b).
Definition slack_at (a : R) : Timed :=
  (mkSample (mkFrame (480, 640)%Z (Some lm_closed) true) lm_closed 640 480,
   mkClock a a).

(** Two holds: readings 10, 12, 15 then out at 16; readings 20 (entry
    only) then out at 21 and 22. *)
Definition two_holds : list Interval :=
  [ mkInterval (straight_at 10 10) [straight_at 12 12; straight_at 15 15]
               (slack_at 16) [];
    mkInterval (straight_at 20 20) [] (slack_at 21) [slack_at 22] ].

(** Both hips at normalised height [v], in a frame 480 pixels high. *)
Definition hips_at (v : R) : Sample :=
  mkSample (mkFrame (480, 640)%Z (Some (fun _ => mkLandmark 0 v)) true)
           (fun _ => mkLandmark 0 v) 640 480.

(** Hip at pixel row 240, up through 225 to 210, down through 230, back
    at 240. *)
Definition hop : JumpTrace :=
  mkJumpTrace (hips_at (1 / 2)) [hips_at (15 / 32)] (hips_at (7 / 16))
              [hips_at (23 / 48)] (hips_at (1 / 2)).

(** A session: jumping jacks selected on a fresh application, then one
    frame with the arms up and one with the arms down. *)
Definition one_jack : Globals :=
  let g0 := fst (set_exercise start (Some "jumping_jacks"%string)) in
  let g1 := fst (generate_frames_step g0 open_frame "t1" (mkClock 1 1)) in
  fst (generate_frames_step g1 closed_frame "t2" (mkClock 2 2)).

End Examples.

(** ** Further vocabulary: plane geometry *)

Module Planar.

Import PoseProcessor.

(** The point on the line through [b] and [a] at [k] times the distance
    of [a] from [b], on the side of [a] for positive [k]. *)
Definition along (b a : Point) (k : R) : Point :=
  (fst b + k * (fst a - fst b), snd b + k * (snd a - snd b)).

End Planar.

(** ** Further vocabulary: push-ups and sit-ups *)

Module Reps.

Import PoseProcessor Trace.


(** Landmark [i] of a sample in pixels: [[landmarks[i].x * w,
    landmarks[i].y * h]]. *)
Definition pixel (s : Sample) (i : nat) : Point :=
  (x (s_landmarks s i) * IZR (s_w s), y (s_landmarks s i) * IZR (s_h s)).

(** The body angle of [process_push_ups]: shoulder-hip-knee. *)
Definition body_angle (s : Sample) : R :=
  calculate_angle (pixel s 11) (pixel s 23) (pixel s 25).

(** One repetition seen through an angle and two thresholds [lo <= hi]:
    a frame with the angle below [lo], further frames with the angle not
    above [hi], a frame with the angle above [hi], further frames with
    the angle not below [lo]. *)
Record Rep : Type := mkRepetition {
  go_down : Sample;
  stay_down : list Sample;
  go_up : Sample;
  stay_up : list Sample
}.

Definition rep_samples (r : Rep) : list Sample :=
  (go_down r :: stay_down r) ++ (go_up r :: stay_up r).

Definition not_below (lo : R) (angle : Sample -> R) (s : Sample) : bool :=
  negb (Py.ltb (angle s) lo).
Definition not_above (hi : R) (angle : Sample -> R) (s : Sample) : bool :=
  negb (Py.ltb hi (angle s)).

Definition is_rep (lo hi : R) (angle : Sample -> R) (r : Rep) : bool :=
  Py.ltb (angle (go_down r)) lo
  && forallb (not_above hi angle) (stay_down r)
  && Py.ltb hi (angle (go_up r))
  && forallb (not_below lo angle) (stay_up r).

End Reps.

(** ** Further vocabulary: states the engine can be in *)

Module Reach.

Import PoseProcessor Kinds.

(** The counter states that [__init__], [process_frame] and
    [reset_counter] can produce. *)
Inductive reachable : Counters -> Prop :=
| reach_init : reachable init
| reach_frame (self : Counters) (frame : Frame) (exercise : string)
    (time : Clock) :
    reachable self -> reachable (fst (process_frame self frame exercise time))
| reach_reset (self : Counters) (exercise : option string) :
    reachable self -> reachable (reset_counter self exercise).

(** A repetition counter after [k] full repetitions: in the closed phase
    with [count] [k], or in the open phase with [count] [k + 0.5]. *)
Definition rep_state (k : nat) (c : RepCounter) : Prop :=
  c = mkRep (INR k) 0 \/ c = mkRep (INR k + 0.5) 1.

(** Two counter states differ at most in the counters of kind [k]. *)
Definition agree_except (k : Kind) (s s' : Counters) : Prop :=
  (k <> JumpingJacks -> jumping_jacks s' = jumping_jacks s)
  /\ (k <> PushUps -> push_ups s' = push_ups s)
  /\ (k <> SitUps -> sit_ups s' = sit_ups s)
  /\ (k <> Plank -> plank s' = plank s)
  /\ (k <> VerticalJump -> vertical_jump s' = vertical_jump s).

End Reach.

(** ** Further vocabulary: streams of frames *)

Module Stream.

Import PoseProcessor Trace App.

(** [process_frame] for a fixed exercise name on a frame with its clock
    readings, and whether the pose model detects something in it. *)
Definition frame_step (exercise : string) (self : Counters)
    (i : Frame * Clock) : Counters * Output :=
  process_frame self (fst i) exercise (snd i).

Definition detected (i : Frame * Clock) : bool :=
  match pose_landmarks (fst i) with
  | Some _ => true
  | None => false
  end.

(** One [camera.read()] with what the loop body observes afterwards: the
    success flag, the frame (mirrored), [datetime.now().isoformat()] and
    the readings of [time.time()]. *)
Record Read : Type := mkRead {
  success : bool;
  image : Frame;
  stamp : string;
  clock : Clock
}.

(** The loop of [generate_frames] over the reads the camera delivers; it
    breaks on the first failed read.  The result is the globals when the
    loop stops and the frames yielded, oldest first. *)
Fixpoint generate_frames (g : Globals) (camera : list Read)
    : Globals * list Frame :=
  match camera with
  | [] => (g, [])
  | r :: rest =>
      if success r then
        let step := generate_frames_step g (image r) (stamp r) (clock r) in
        let out := generate_frames (fst step) rest in
        (fst out, snd step :: snd out)
      else (g, [])
  end.

(** The clock never runs backwards over a sequence of plank frames: every
    first reading is at least [lo], the latest reading before it, and
    every second reading at least the first. *)
Fixpoint clock_ordered (lo : R) (l : list Timed) : Prop :=
  match l with
  | [] => True
  | i :: rest =>
      lo <= t1 (snd i) /\ t1 (snd i) <= t2 (snd i)
      /\ clock_ordered (t2 (snd i)) rest
  end.

(** One jump after the baseline is set: frames on the way up, the frame
    at the top, [hop_top] pixels above the baseline, frames on the way
    down, and a frame back at the baseline. *)
Record Hop : Type := mkHop {
  hop_top : R;
  hop_rising : list Sample;
  hop_peak : Sample;
  hop_falling : list Sample;
  hop_landing : Sample
}.

Definition hop_samples (h : Hop) : list Sample :=
  hop_rising h ++ hop_peak h :: hop_falling h ++ [hop_landing h].

Definition is_hop (b : R) (h : Hop) : Prop :=
  20 < hop_top h
  /\ climbs 0 (hop_top h) (map (height_above b) (hop_rising h))
  /\ hip_y (hop_peak h) = b - hop_top h
  /\ descends (hop_top h) 0 (map (height_above b) (hop_falling h))
  /\ hip_y (hop_landing h) = b.

End Stream.

(** ** Further concrete frames *)

Module Cases.

Import PoseProcessor Trace Reps Stream Examples.

(** Shoulder, elbow and wrist on one horizontal line with the elbow in
    the middle, and likewise shoulder, hip and knee. *)
Definition lm_line : Landmarks :=
  fun i => match i with
           | 13%nat | 23%nat => mkLandmark (1 / 2) 0
           | 15%nat | 25%nat | 27%nat => mkLandmark 1 0
           | _ => mkLandmark 0 0
           end.

Definition line_sample : Sample :=
  mkSample (mkFrame (480, 640)%Z (Some lm_line) true) lm_line 640 480.

(** Down (all joints on one spot, angle 0), still down, up (angle 180),
    still up. *)
Definition one_rep : Rep :=
  mkRepetition closed_sample [closed_sample] line_sample [line_sample].

(** Two hops of 30 and 25 pixels above the baseline row 240. *)
Definition two_hops : list Hop :=
  [ mkHop 30 [hips_at (15 / 32)] (hips_at (7 / 16)) [hips_at (23 / 48)]
          (hips_at (1 / 2));
    mkHop 25 [] (hips_at (43 / 96)) [] (hips_at (1 / 2)) ].

End Cases.

(** ** Further vocabulary: camera reads *)

Module Cameras.

Import PoseProcessor Trace App Stream Examples.

(** The camera frame behind a sample: its shape, the landmarks the pose
    model finds in it, and no overlay yet; and the successful read that
    delivers it at a given time. *)
Definition seen (s : Sample) : Frame :=
  mkFrame (s_h s, s_w s) (Some (s_landmarks s)) false.

Definition read_of (now : string) (time : Clock) (s : Sample) : Read :=
  mkRead true (seen s) now time.

Definition failed_read : Read := mkRead false empty_frame "t" (mkClock 0 0).

(** Jumping jacks selected on a fresh application. *)
Definition jacks_selected : Globals :=
  fst (set_exercise start (Some "jumping_jacks"%string)).

(** Two good reads, a failed one, and a read that is never reached. *)
Definition broken_camera : list Read :=
  [ read_of "t1" (mkClock 1 1) open_sample;
    read_of "t2" (mkClock 2 2) closed_sample;
    failed_read;
    read_of "t4" (mkClock 4 4) open_sample ].

End Cameras.

(** ** The jumping-jacks predicate as the specification words it *)

Module Wording.

Import PoseProcessor Trace Examples.

(** Both wrists above both shoulders (all four comparisons) and the hips
    more than 100 pixels apart: the wording of the specification, where
    the code compares each wrist with the shoulder of its own side
    only. *)
Definition jj_open_as_worded (s : Sample) : bool :=
  let landmarks := s_landmarks s in
  (Py.ltb (y (landmarks 15%nat)) (y (landmarks 11%nat))
   && Py.ltb (y (landmarks 15%nat)) (y (landmarks 12%nat))
   && Py.ltb (y (landmarks 16%nat)) (y (landmarks 11%nat))
   && Py.ltb (y (landmarks 16%nat)) (y (landmarks 12%nat)))
  && Py.ltb 100 (Rabs (x (landmarks 24%nat) - x (landmarks 23%nat))
                 * IZR (s_w s)).

(** A tilted pose: the left shoulder low (height 1) and the right one
    high (height 1/4); the left wrist (height 1/2) is above the left
    shoulder but below the right one, the right wrist (height 0) above
    both; hips a full frame width apart. *)
Definition lm_tilt : Landmarks :=
  fun i => match i with
           | 11%nat => mkLandmark 0 1
           | 12%nat => mkLandmark 0 (1 / 4)
           | 15%nat => mkLandmark 0 (1 / 2)
           | 24%nat => mkLandmark 1 1
           | _ => mkLandmark 0 0
           end.

Definition tilt_sample : Sample :=
  mkSample (mkFrame (480, 640)%Z (Some lm_tilt) false) lm_tilt 640 480.

End Wording.

(** ** The repetition methods on measured angles *)

Module Measured.

Import PoseProcessor Trace.

(** An angle as the running program measures it on a frame: the value
    [calculate_angle] returns there, rounding included, as a function of
    the landmarks and the frame size. *)
Definition Gauge : Type := Landmarks -> Z -> Z -> R.

(** The three angles of [process_push_ups] and [process_sit_ups] in
    exact arithmetic: shoulder-elbow-wrist and shoulder-hip-knee. *)
Definition exact_arm : Gauge :=
  fun landmarks w h =>
    calculate_angle
      (x (landmarks 11%nat) * IZR w, y (landmarks 11%nat) * IZR h)
      (x (landmarks 13%nat) * IZR w, y (landmarks 13%nat) * IZR h)
      (x (landmarks 15%nat) * IZR w, y (landmarks 15%nat) * IZR h).

Definition exact_body : Gauge :=
  fun landmarks w h =>
    calculate_angle
      (x (landmarks 11%nat) * IZR w, y (landmarks 11%nat) * IZR h)
      (x (landmarks 23%nat) * IZR w, y (landmarks 23%nat) * IZR h)
      (x (landmarks 25%nat) * IZR w, y (landmarks 25%nat) * IZR h).

(** [process_push_ups] with its two angles read from gauges; at
    [exact_arm] and [exact_body] it is [process_push_ups], at the
    binary64 angle utility it is the method as it runs. *)
Definition process_push_ups_with (arm body : Gauge)
    (self : Counters) (frame : Frame) (landmarks : Landmarks) (w h : Z)
    : Counters * Output :=
  let counter := push_ups self in
  let arm_angle := arm landmarks w h in
  let body_angle := body landmarks w h in
  let counter' :=
    count_logic counter (Py.ltb arm_angle 90) (Py.ltb 160 arm_angle) in
  let metrics :=
    [ ("count"%string, MInt (Py.int (count counter')));
      ("arm_angle"%string, MInt (Py.int arm_angle));
      ("body_angle"%string, MInt (Py.int body_angle));
      ("form_score"%string,
        MInt (if Py.ltb 160 body_angle && Py.ltb body_angle 190
              then 100 else 70)) ] in
  (set_push_ups self counter', (frame, metrics)).

(** [process_sit_ups] with its angle read from a gauge. *)
Definition process_sit_ups_with (torso : Gauge)
    (self : Counters) (frame : Frame) (landmarks : Landmarks) (w h : Z)
    : Counters * Output :=
  let counter := sit_ups self in
  let angle := torso landmarks w h in
  let counter' :=
    count_logic counter (Py.ltb angle 90) (Py.ltb 150 angle) in
  let metrics :=
    [ ("count"%string, MInt (Py.int (count counter')));
      ("angle"%string, MInt (Py.int angle));
      ("status"%string, MStr (if Py.ltb angle 90 then "Up" else "Down")) ] in
  (set_sit_ups self counter', (frame, metrics)).

Definition push_ups_step_with (arm body : Gauge) (self : Counters)
    (s : Sample) : Counters * Output :=
  process_push_ups_with arm body self (s_frame s) (s_landmarks s)
                        (s_w s) (s_h s).

Definition sit_ups_step_with (torso : Gauge) (self : Counters)
    (s : Sample) : Counters * Output :=
  process_sit_ups_with torso self (s_frame s) (s_landmarks s) (s_w s) (s_h s).

(** The reading of a gauge on a sample. *)
Definition gauged (g : Gauge) (s : Sample) : R :=
  g (s_landmarks s) (s_w s) (s_h s).

End Measured.

(** * Properties *)

(** ** Numeric primitives *)

Section PyFacts.

Lemma ltb_true (a b : R) : a < b -> Py.ltb a b = true.
Proof. intros H; unfold Py.ltb; destruct (Rlt_dec a b); [reflexivity | contradiction]. Qed.

Lemma ltb_false (a b : R) : b <= a -> Py.ltb a b = false.
Proof. intros H; unfold Py.ltb; destruct (Rlt_dec a b); [lra | reflexivity]. Qed.

Lemma int_IZR (n : Z) : (0 <= n)%Z -> Py.int (IZR n) = n.
Proof.
  intros Hn; unfold Py.int.
  destruct (Rle_dec 0 (IZR n)) as [_ | Hneg].
  - apply ZfloorZ.
  - exfalso; apply Hneg. apply (IZR_le 0 n Hn).
Qed.

Lemma int_INR (n : nat) : Py.int (INR n) = Z.of_nat n.
Proof. rewrite INR_IZR_INZ. apply int_IZR. lia. Qed.

Lemma int_0 : Py.int 0 = 0%Z.
Proof. apply (int_IZR 0). lia. Qed.

Lemma atan_pos (t : R) : 0 < t -> 0 < atan t.
Proof. intros H; rewrite <- atan_0; now apply atan_increasing. Qed.

Lemma atan_neg (t : R) : t < 0 -> atan t < 0.
Proof. intros H; rewrite <- atan_0; now apply atan_increasing. Qed.

Lemma div_pos_neg (u v : R) : 0 < u -> v < 0 -> u / v < 0.
Proof.
  intros Hu Hv. unfold Rdiv.
  assert (/ v < 0) by now apply Rinv_neg.
  nra.
Qed.

Lemma div_neg_neg (u v : R) : u < 0 -> v < 0 -> 0 < u / v.
Proof.
  intros Hu Hv. unfold Rdiv.
  assert (/ v < 0) by now apply Rinv_neg.
  nra.
Qed.

Lemma div_neg_pos (u v : R) : u < 0 -> 0 < v -> u / v < 0.
Proof.
  intros Hu Hv. unfold Rdiv.
  assert (0 < / v) by now apply Rinv_0_lt_compat.
  nra.
Qed.

Lemma div_pos_pos (u v : R) : 0 < u -> 0 < v -> 0 < u / v.
Proof. intros; now apply Rdiv_lt_0_compat. Qed.

Lemma div_zero_l (v : R) : 0 / v = 0.
Proof. unfold Rdiv; ring. Qed.

(** [arctan2] ranges over (-PI, PI]. *)
Lemma arctan2_range (dy dx : R) : - PI < Py.arctan2 dy dx <= PI.
Proof.
  pose proof PI_RGT_0 as Hpi.
  pose proof (atan_bound (dy / dx)) as Hb.
  unfold Py.arctan2.
  destruct (Rlt_dec 0 dx) as [Hx | Hx]; [lra |].
  destruct (Rlt_dec dx 0) as [Hx' | Hx'].
  - destruct (Rle_dec 0 dy) as [Hy | Hy].
    + destruct Hy as [Hy | Hy].
      * pose proof (atan_neg _ (div_pos_neg _ _ Hy Hx')). lra.
      * subst dy. rewrite div_zero_l, atan_0. lra.
    + assert (dy < 0) as Hy' by lra.
      pose proof (atan_pos _ (div_neg_neg _ _ Hy' Hx')). lra.
  - destruct (Rlt_dec 0 dy); [lra |].
    destruct (Rlt_dec dy 0); lra.
Qed.

(** On the closed upper half plane, away from the origin, [arctan2] lies
    in [0, PI]; on the open lower half plane it lies in (-PI, 0). *)
Lemma arctan2_upper (dy dx : R) : 0 <= dy -> 0 <= Py.arctan2 dy dx <= PI.
Proof.
  intros Hy. pose proof PI_RGT_0 as Hpi.
  pose proof (atan_bound (dy / dx)) as Hb.
  unfold Py.arctan2.
  destruct (Rlt_dec 0 dx) as [Hx | Hx].
  - destruct Hy as [Hy | Hy].
    + pose proof (atan_pos _ (div_pos_pos _ _ Hy Hx)). lra.
    + subst dy. rewrite div_zero_l, atan_0. lra.
  - destruct (Rlt_dec dx 0) as [Hx' | Hx'].
    + destruct (Rle_dec 0 dy) as [_ | Hn]; [| contradiction].
      destruct Hy as [Hy | Hy].
      * pose proof (atan_neg _ (div_pos_neg _ _ Hy Hx')). lra.
      * subst dy. rewrite div_zero_l, atan_0. lra.
    + destruct (Rlt_dec 0 dy); [lra |].
      destruct (Rlt_dec dy 0); lra.
Qed.

Lemma arctan2_lower (dy dx : R) : dy < 0 -> - PI < Py.arctan2 dy dx < 0.
Proof.
  intros Hy. pose proof PI_RGT_0 as Hpi.
  pose proof (atan_bound (dy / dx)) as Hb.
  unfold Py.arctan2.
  destruct (Rlt_dec 0 dx) as [Hx | Hx].
  - pose proof (atan_neg _ (div_neg_pos _ _ Hy Hx)). lra.
  - destruct (Rlt_dec dx 0) as [Hx' | Hx'].
    + destruct (Rle_dec 0 dy) as [Hn | _]; [lra |].
      pose proof (atan_pos _ (div_neg_neg _ _ Hy Hx')). lra.
    + destruct (Rlt_dec 0 dy); [lra |].
      destruct (Rlt_dec dy 0); lra.
Qed.

Lemma div_opp_r (u v : R) : v <> 0 -> u / - v = - (u / v).
Proof. intros Hv. field. exact Hv. Qed.

(** Mirroring a ray left-right. *)
Lemma arctan2_mirror_upper (dy dx : R) :
  0 <= dy -> (dx <> 0 \/ dy <> 0) ->
  Py.arctan2 dy (- dx) = PI - Py.arctan2 dy dx.
Proof.
  intros Hy Hne. unfold Py.arctan2.
  destruct (Rlt_dec 0 dx) as [Hx | Hx].
  - destruct (Rlt_dec 0 (- dx)); [lra |].
    destruct (Rlt_dec (- dx) 0); [| lra].
    destruct (Rle_dec 0 dy); [| lra].
    rewrite div_opp_r by lra. rewrite atan_opp. lra.
  - destruct (Rlt_dec dx 0) as [Hx' | Hx'].
    + destruct (Rlt_dec 0 (- dx)); [| lra].
      destruct (Rle_dec 0 dy); [| lra].
      rewrite div_opp_r by lra. rewrite atan_opp. lra.
    + assert (dx = 0) by lra. subst dx.
      destruct (Rlt_dec 0 (- 0)); [lra |].
      destruct (Rlt_dec (- 0) 0); [lra |].
      destruct (Rlt_dec 0 dy); [lra |].
      destruct Hne; lra.
Qed.

Lemma arctan2_mirror_lower (dy dx : R) :
  dy < 0 -> Py.arctan2 dy (- dx) = - PI - Py.arctan2 dy dx.
Proof.
  intros Hy. unfold Py.arctan2.
  destruct (Rlt_dec 0 dx) as [Hx | Hx].
  - destruct (Rlt_dec 0 (- dx)); [lra |].
    destruct (Rlt_dec (- dx) 0); [| lra].
    destruct (Rle_dec 0 dy); [lra |].
    rewrite div_opp_r by lra. rewrite atan_opp. lra.
  - destruct (Rlt_dec dx 0) as [Hx' | Hx'].
    + destruct (Rlt_dec 0 (- dx)); [| lra].
      destruct (Rle_dec 0 dy); [lra |].
      rewrite div_opp_r by lra. rewrite atan_opp. lra.
    + assert (dx = 0) by lra. subst dx.
      destruct (Rlt_dec 0 (- 0)); [lra |].
      destruct (Rlt_dec (- 0) 0); [lra |].
      destruct (Rlt_dec 0 dy); [lra |].
      destruct (Rlt_dec dy 0); lra.
Qed.

(** Stretching a ray by a positive factor. *)
Lemma arctan2_scale (k dy dx : R) :
  0 < k -> Py.arctan2 (k * dy) (k * dx) = Py.arctan2 dy dx.
Proof.
  intros Hk. unfold Py.arctan2.
  assert (Hq : dx <> 0 -> k * dy / (k * dx) = dy / dx)
    by (intros; field; split; lra).
  destruct (Rlt_dec 0 dx) as [Hx | Hx].
  - destruct (Rlt_dec 0 (k * dx)); [| nra]. rewrite Hq by lra. reflexivity.
  - destruct (Rlt_dec 0 (k * dx)); [nra |].
    destruct (Rlt_dec dx 0) as [Hx' | Hx'].
    + destruct (Rlt_dec (k * dx) 0); [| nra].
      rewrite Hq by lra.
      destruct (Rle_dec 0 dy); destruct (Rle_dec 0 (k * dy)); try reflexivity; nra.
    + destruct (Rlt_dec (k * dx) 0); [nra |].
      destruct (Rlt_dec 0 dy); destruct (Rlt_dec 0 (k * dy)); try nra; try reflexivity.
      destruct (Rlt_dec dy 0); destruct (Rlt_dec (k * dy) 0); try nra; reflexivity.
Qed.

(** Radians to degrees. *)
Lemma deg_PI : PI * 180 / PI = 180.
Proof. field. apply PI_neq0. Qed.

Lemma deg_lt (r s : R) : r < s -> r * 180 / PI < s * 180 / PI.
Proof.
  intros H. pose proof PI_RGT_0 as Hpi.
  unfold Rdiv. apply Rmult_lt_compat_r; [now apply Rinv_0_lt_compat | lra].
Qed.

Lemma deg_le (r s : R) : r <= s -> r * 180 / PI <= s * 180 / PI.
Proof.
  intros [H | H]; [left; now apply deg_lt | subst; right; reflexivity].
Qed.

Lemma deg_sub (r s : R) : (r - s) * 180 / PI = r * 180 / PI - s * 180 / PI.
Proof. field. apply PI_neq0. Qed.

Lemma deg_opp (r : R) : (- r) * 180 / PI = - (r * 180 / PI).
Proof. field. apply PI_neq0. Qed.

End PyFacts.

(** Evaluation of the engine on concrete frames: unfold everything but the
    real-number operations, then settle each comparison by arithmetic. *)
Ltac run_engine :=
  cbv -[Rplus Rminus Rmult Rdiv Rinv Ropp Rabs IZR Py.ltb Py.int PI atan
        Rlt_dec Rle_dec].

Ltac settle_ltb :=
  repeat match goal with
         | |- context [Py.ltb ?a ?b] =>
             first [ rewrite (ltb_true a b)
                       by (try rewrite Rabs_pos_eq by lra; lra)
                   | rewrite (ltb_false a b)
                       by (try rewrite Rabs_pos_eq by lra; lra) ]
         end.

(** ** The angle utility *)

Section Angle.

Import PoseProcessor Geometry.

Lemma deg_2PI : 2 * PI * 180 / PI = 360.
Proof. field. apply PI_neq0. Qed.

Lemma calculate_angle_fold (a b c : Point) :
  calculate_angle a b c =
  fold180 ((Py.arctan2 (snd c - snd b) (fst c - fst b)
            - Py.arctan2 (snd a - snd b) (fst a - fst b)) * 180 / PI).
Proof. reflexivity. Qed.

Lemma fold180_opp (d : R) : fold180 (- d) = fold180 d.
Proof. unfold fold180. rewrite Rabs_Ropp. reflexivity. Qed.

Lemma fold180_range (d : R) : -360 <= d <= 360 -> 0 <= fold180 d <= 180.
Proof.
  intros Hd. unfold fold180, Py.ltb.
  destruct (Rlt_dec 180 (Rabs d)) as [H | H];
    unfold Rabs in *; destruct (Rcase_abs d); lra.
Qed.

(** Turning the other way round the full circle gives the same interior
    angle. *)
Lemma fold180_turn (d : R) : 0 <= d <= 360 -> fold180 (360 - d) = fold180 d.
Proof.
  intros Hd. unfold fold180, Py.ltb.
  rewrite (Rabs_pos_eq (360 - d)) by lra.
  rewrite (Rabs_pos_eq d) by lra.
  destruct (Rlt_dec 180 (360 - d)); destruct (Rlt_dec 180 d); lra.
Qed.

(** In exact arithmetic, for all points [a], [b], [c], coincident ones
    included, [calculate_angle a b c] lies in the closed interval
    [0, 180].  (Whether the binary64 result is free of NaN and Inf is
    beyond this reading of floats.) *)
Theorem calculate_angle_range (a b c : Point) :
  0 <= calculate_angle a b c <= 180.
Proof.
  rewrite calculate_angle_fold. apply fold180_range.
  pose proof (arctan2_range (snd c - snd b) (fst c - fst b)) as Hc.
  pose proof (arctan2_range (snd a - snd b) (fst a - fst b)) as Ha.
  set (tc := Py.arctan2 (snd c - snd b) (fst c - fst b)) in *.
  set (ta := Py.arctan2 (snd a - snd b) (fst a - fst b)) in *.
  assert (H1 : (- (2 * PI)) * 180 / PI <= (tc - ta) * 180 / PI)
    by (apply deg_le; lra).
  assert (H2 : (tc - ta) * 180 / PI <= 2 * PI * 180 / PI)
    by (apply deg_le; lra).
  rewrite deg_opp, deg_2PI in H1. rewrite deg_2PI in H2. lra.
Qed.

Lemma point_neq (p q : Point) :
  p <> q -> fst p - fst q <> 0 \/ snd p - snd q <> 0.
Proof.
  intros Hne. destruct p as [p1 p2], q as [q1 q2]; simpl.
  destruct (Req_dec p1 q1) as [H1 | H1]; [| left; lra].
  destruct (Req_dec p2 q2) as [H2 | H2]; [| right; lra].
  subst; contradiction Hne; reflexivity.
Qed.

Lemma calculate_angle_mirror (a b c : Point) :
  a <> b -> c <> b ->
  calculate_angle (mirror a) (mirror b) (mirror c) = calculate_angle a b c.
Proof.
  intros Hab Hcb.
  apply point_neq in Hab. apply point_neq in Hcb.
  rewrite !calculate_angle_fold. unfold mirror; simpl.
  replace (- fst c - - fst b) with (- (fst c - fst b)) by ring.
  replace (- fst a - - fst b) with (- (fst a - fst b)) by ring.
  set (cy := snd c - snd b) in *. set (cx := fst c - fst b) in *.
  set (ay := snd a - snd b) in *. set (ax := fst a - fst b) in *.
  destruct (Rle_lt_dec 0 cy) as [Hc | Hc]; destruct (Rle_lt_dec 0 ay) as [Ha | Ha].
  - rewrite !arctan2_mirror_upper by assumption.
    replace (PI - Py.arctan2 cy cx - (PI - Py.arctan2 ay ax))
      with (- (Py.arctan2 cy cx - Py.arctan2 ay ax)) by ring.
    rewrite deg_opp. apply fold180_opp.
  - rewrite arctan2_mirror_upper, arctan2_mirror_lower by assumption.
    pose proof (arctan2_upper cy cx Hc) as Bc.
    pose proof (arctan2_lower ay ax Ha) as Ba.
    replace (PI - Py.arctan2 cy cx - (- PI - Py.arctan2 ay ax))
      with (2 * PI - (Py.arctan2 cy cx - Py.arctan2 ay ax)) by ring.
    rewrite deg_sub, deg_2PI. apply fold180_turn.
    rewrite <- deg_2PI.
    replace 0 with (0 * 180 / PI) by (unfold Rdiv; ring).
    split; apply deg_le; lra.
  - rewrite arctan2_mirror_lower, arctan2_mirror_upper by assumption.
    pose proof (arctan2_lower cy cx Hc) as Bc.
    pose proof (arctan2_upper ay ax Ha) as Ba.
    replace (- PI - Py.arctan2 cy cx - (PI - Py.arctan2 ay ax))
      with (- (2 * PI - (Py.arctan2 ay ax - Py.arctan2 cy cx))) by ring.
    rewrite deg_opp, fold180_opp, deg_sub, deg_2PI.
    replace (Py.arctan2 cy cx - Py.arctan2 ay ax)
      with (- (Py.arctan2 ay ax - Py.arctan2 cy cx)) by ring.
    rewrite (deg_opp (Py.arctan2 ay ax - Py.arctan2 cy cx)), fold180_opp.
    apply fold180_turn.
    rewrite <- deg_2PI.
    replace 0 with (0 * 180 / PI) by (unfold Rdiv; ring).
    split; apply deg_le; lra.
  - rewrite !arctan2_mirror_lower by assumption.
    replace (- PI - Py.arctan2 cy cx - (- PI - Py.arctan2 ay ax))
      with (- (Py.arctan2 cy cx - Py.arctan2 ay ax)) by ring.
    rewrite deg_opp. apply fold180_opp.
Qed.

Lemma calculate_angle_scale (k : R) (a b c : Point) :
  0 < k ->
  calculate_angle (scale k a) (scale k b) (scale k c) = calculate_angle a b c.
Proof.
  intros Hk. rewrite !calculate_angle_fold. unfold scale; simpl.
  replace (k * snd c - k * snd b) with (k * (snd c - snd b)) by ring.
  replace (k * fst c - k * fst b) with (k * (fst c - fst b)) by ring.
  replace (k * snd a - k * snd b) with (k * (snd a - snd b)) by ring.
  replace (k * fst a - k * fst b) with (k * (fst a - fst b)) by ring.
  rewrite !arctan2_scale by assumption. reflexivity.
Qed.

(** In exact arithmetic, when the vertex [b] differs from [a] and from
    [c], [calculate_angle] is unchanged by reflecting the three points
    left-right and by scaling them uniformly by a positive factor.  (The
    binary64 results of the running program agree up to rounding
    only.) *)
Theorem calculate_angle_invariant (k : R) (a b c : Point) :
  a <> b -> c <> b -> 0 < k ->
  calculate_angle (mirror a) (mirror b) (mirror c) = calculate_angle a b c
  /\ calculate_angle (scale k a) (scale k b) (scale k c) = calculate_angle a b c.
Proof.
  intros Hab Hcb Hk. split.
  - now apply calculate_angle_mirror.
  - now apply calculate_angle_scale.
Qed.

End Angle.

(** ** Running a state machine over a sequence of frames *)

Section Run.

Import PoseProcessor Trace.

Context {A : Type} (step : Counters -> A -> Counters * Output).

Lemma run_app (self : Counters) (l1 l2 : list A) :
  run step self (l1 ++ l2) =
  (fst (run step (fst (run step self l1)) l2),
   snd (run step self l1) ++ snd (run step (fst (run step self l1)) l2)).
Proof.
  revert self. induction l1 as [| i l1 IH]; intros self; simpl.
  - destruct (run step self l2); reflexivity.
  - rewrite IH. reflexivity.
Qed.

Lemma run_length (self : Counters) (l : list A) :
  List.length (snd (run step self l)) = List.length l.
Proof.
  revert self. induction l as [| i l IH]; intros self; simpl; [| rewrite IH]; reflexivity.
Qed.

(** A property that every step establishes between its record and its
    post-state holds between the last record and the final state. *)
Lemma run_last (P : Counters -> Metrics -> Prop) :
  (forall self i, P (fst (step self i)) (snd (snd (step self i)))) ->
  forall l self, l <> [] ->
    P (fst (run step self l)) (last (snd (run step self l)) []).
Proof.
  intros Hstep. induction l as [| i l IH]; intros self Hne; [contradiction |].
  destruct l as [| j l'].
  - simpl. apply Hstep.
  - specialize (IH (fst (step self i))).
    change (run step self (i :: j :: l'))
      with (fst (run step (fst (step self i)) (j :: l')),
            snd (snd (step self i)) :: snd (run step (fst (step self i)) (j :: l'))).
    cbn [fst snd].
    assert (Hl : snd (run step (fst (step self i)) (j :: l')) <> []).
    { intros Hnil. apply (f_equal (@List.length _)) in Hnil.
      rewrite run_length in Hnil. discriminate. }
    destruct (snd (run step (fst (step self i)) (j :: l'))) as [| m ms] eqn:E;
      [contradiction |].
    change (last (snd (snd (step self i)) :: m :: ms) []) with (last (m :: ms) []).
    apply IH. discriminate.
Qed.

End Run.

(** ** Jumping jacks *)

Section JumpingJacks.

Import PoseProcessor Trace.

Lemma jj_step_counter (self : Counters) (s : Sample) :
  jumping_jacks (fst (jumping_jacks_step self s)) =
  count_logic (jumping_jacks self) (jj_open s) true.
Proof. reflexivity. Qed.

Lemma jj_step_record (self : Counters) (s : Sample) :
  metric (snd (snd (jumping_jacks_step self s))) "count" =
  Some (MInt (Py.int (count (jumping_jacks (fst (jumping_jacks_step self s)))))).
Proof. reflexivity. Qed.

(** Frames that agree with the current phase change nothing. *)
Lemma jj_open_stay (l : list Sample) (self : Counters) :
  forallb jj_open l = true -> direction (jumping_jacks self) = 1%Z ->
  jumping_jacks (fst (run jumping_jacks_step self l)) = jumping_jacks self.
Proof.
  revert self. induction l as [| s l IH]; intros self Hall Hdir; [reflexivity |].
  simpl in Hall. apply andb_prop in Hall as [Hs Hl].
  cbn [run fst].
  assert (Hc : jumping_jacks (fst (jumping_jacks_step self s)) = jumping_jacks self).
  { rewrite jj_step_counter. unfold count_logic. rewrite Hs, Hdir. reflexivity. }
  rewrite IH; [exact Hc | exact Hl | rewrite Hc; exact Hdir].
Qed.

Lemma jj_closed_stay (l : list Sample) (self : Counters) :
  forallb jj_closed l = true -> direction (jumping_jacks self) = 0%Z ->
  jumping_jacks (fst (run jumping_jacks_step self l)) = jumping_jacks self.
Proof.
  revert self. induction l as [| s l IH]; intros self Hall Hdir; [reflexivity |].
  simpl in Hall. apply andb_prop in Hall as [Hs Hl].
  unfold jj_closed in Hs. apply negb_true_iff in Hs.
  cbn [run fst].
  assert (Hc : jumping_jacks (fst (jumping_jacks_step self s)) = jumping_jacks self).
  { rewrite jj_step_counter. unfold count_logic. rewrite Hs, Hdir. reflexivity. }
  rewrite IH; [exact Hc | exact Hl | rewrite Hc; exact Hdir].
Qed.

(** One full cycle from the closed phase adds exactly one repetition and
    ends in the closed phase. *)
Lemma jj_cycle (c : Cycle) (self : Counters) :
  is_cycle c = true -> direction (jumping_jacks self) = 0%Z ->
  jumping_jacks (fst (run jumping_jacks_step self (cycle_samples c))) =
  mkRep (count (jumping_jacks self) + 1) 0.
Proof.
  intros Hc Hdir. unfold is_cycle in Hc.
  apply andb_prop in Hc as [Hopen Hclosed].
  simpl in Hopen, Hclosed.
  apply andb_prop in Hopen as [Ho1 Ho].
  apply andb_prop in Hclosed as [Hc1 Hc].
  unfold jj_closed in Hc1. apply negb_true_iff in Hc1.
  unfold cycle_samples. rewrite run_app. cbn [fst].
  set (s1 := fst (run jumping_jacks_step self (open_first c :: open_rest c))).
  assert (H1 : jumping_jacks s1 = mkRep (count (jumping_jacks self) + 0.5) 1).
  { unfold s1. cbn [run fst].
    assert (Hf : jumping_jacks (fst (jumping_jacks_step self (open_first c)))
                 = mkRep (count (jumping_jacks self) + 0.5) 1).
    { rewrite jj_step_counter. unfold count_logic. rewrite Ho1, Hdir. reflexivity. }
    rewrite jj_open_stay; [exact Hf | exact Ho | rewrite Hf; reflexivity]. }
  cbn [run fst].
  assert (Hf : jumping_jacks (fst (jumping_jacks_step s1 (closed_first c)))
               = mkRep (count (jumping_jacks self) + 1) 0).
  { rewrite jj_step_counter. unfold count_logic. rewrite Hc1, H1. simpl.
    f_equal. lra. }
  rewrite jj_closed_stay; [exact Hf | exact Hc | rewrite Hf; reflexivity].
Qed.

Lemma jj_cycles (cycles : list Cycle) (self : Counters) :
  Forall (fun c => is_cycle c = true) cycles ->
  direction (jumping_jacks self) = 0%Z ->
  jumping_jacks (fst (run jumping_jacks_step self (flat_map cycle_samples cycles))) =
  mkRep (count (jumping_jacks self) + INR (List.length cycles)) 0.
Proof.
  revert self. induction cycles as [| c cycles IH]; intros self Hall Hdir.
  - simpl. destruct (jumping_jacks self) as [n d]; simpl in *. subst d.
    f_equal. lra.
  - inversion Hall as [| ? ? Hc Hrest]; subst.
    cbn [flat_map]. rewrite run_app. cbn [fst].
    rewrite IH; [| exact Hrest | rewrite (jj_cycle c self Hc Hdir); reflexivity].
    rewrite (jj_cycle c self Hc Hdir). cbn [count].
    f_equal. change (List.length (c :: cycles)) with (S (List.length cycles)).
    rewrite S_INR. lra.
Qed.

(** C2, amended: with the predicate as the code tests it (each wrist
    above the shoulder of its own side, and the hips more than 100
    pixels apart), from the counters of [__init__], a frame sequence
    made of any number of frames with the predicate false followed by N
    full cycles
    (each one or more frames with the predicate true, then one or more
    with it false) ends with [count] equal to N and the phase closed, a
    record for every frame, and N as the [count] of the last record,
    whatever the number of frames in each phase. *)
Theorem jumping_jacks_counts_cycles (idle : list Sample) (cycles : list Cycle) :
  forallb jj_closed idle = true ->
  Forall (fun c => is_cycle c = true) cycles ->
  let samples := idle ++ flat_map cycle_samples cycles in
  let r := run jumping_jacks_step init samples in
  jumping_jacks (fst r) = mkRep (INR (List.length cycles)) 0
  /\ List.length (snd r) = List.length samples
  /\ (samples <> [] ->
      metric (last (snd r) []) "count" =
      Some (MInt (Z.of_nat (List.length cycles)))).
Proof.
  intros Hidle Hcycles samples r.
  assert (Hfinal : jumping_jacks (fst r) = mkRep (INR (List.length cycles)) 0).
  { unfold r, samples. rewrite run_app. cbn [fst].
    assert (Hi : jumping_jacks (fst (run jumping_jacks_step init idle))
                 = jumping_jacks init)
      by (apply jj_closed_stay; [exact Hidle | reflexivity]).
    rewrite jj_cycles; [| exact Hcycles | rewrite Hi; reflexivity].
    rewrite Hi. simpl. f_equal. lra. }
  split; [exact Hfinal |]. split; [apply run_length |].
  intros Hne.
  pose proof (run_last jumping_jacks_step
                (fun self m => metric m "count" =
                               Some (MInt (Py.int (count (jumping_jacks self)))))
                jj_step_record samples init Hne) as Hlast.
  fold r in Hlast. rewrite Hlast, Hfinal. cbn [count].
  rewrite int_INR. reflexivity.
Qed.

End JumpingJacks.

(** ** The jumping-jacks predicate as worded *)

Section JumpingJacksWording.

Import PoseProcessor Trace Examples Wording.

Lemma int_half : Py.int (0 + 0.5) = 0%Z.
Proof.
  unfold Py.int. destruct (Rle_dec 0 (0 + 0.5)) as [_ | Hn]; [| lra].
  apply Zfloor_eq. lra.
Qed.

(** C2 as stated fails: over the frames closed, open, tilted the
    predicate as worded (both wrists above both shoulders) is false,
    true, false, one full cycle, yet the code's predicate is still true
    on the tilted frame, the counter stays at 0.5 in the open phase and
    the last record reports [count] 0, not 1. *)
Lemma worded_cycle_is_not_counted :
  let samples := [closed_sample; open_sample; tilt_sample] in
  let r := run jumping_jacks_step init samples in
  map jj_open_as_worded samples = [false; true; false]
  /\ map jj_open samples = [false; true; true]
  /\ jumping_jacks (fst r) = mkRep (0 + 0.5) 1
  /\ metric (last (snd r) []) "count" = Some (MInt 0).
Proof.
  cbv zeta. split; [| split; [| split]].
  - run_engine. settle_ltb. reflexivity.
  - run_engine. settle_ltb. reflexivity.
  - run_engine. settle_ltb. reflexivity.
  - run_engine. settle_ltb. cbv iota.
    replace (0 + 5 * / 10) with (0 + 0.5) by lra.
    rewrite int_half. reflexivity.
Qed.

End JumpingJacksWording.

(** ** Plank *)

Section Plank.

Import PoseProcessor Trace.

Lemma plank_step_counter (self : Counters) (i : Timed) :
  plank (fst (plank_step self i)) =
  if in_plank i then
    match start_time (plank self) with
    | None => mkPlank (Some (t1 (snd i))) (t2 (snd i) - t1 (snd i))
                      (total (plank self))
    | Some s => mkPlank (Some s) (t1 (snd i) - s) (total (plank self))
    end
  else
    match start_time (plank self) with
    | Some _ => mkPlank None 0 (total (plank self) + elapsed (plank self))
    | None => plank self
    end.
Proof. reflexivity. Qed.









End Plank.

(** ** Vertical jump *)

Section VerticalJump.

Import PoseProcessor Trace.

Lemma vj_step_first (self : Counters) (s : Sample) :
  vertical_jump self = mkJump None 0 0 ->
  vertical_jump (fst (vertical_jump_step self s)) = mkJump (Some (hip_y s)) 0 0.
Proof.
  intros H. unfold vertical_jump_step, process_vertical_jump.
  cbn [fst vertical_jump set_vertical_jump]. rewrite H. cbn [baseline max_height jumps].
  fold (hip_y s).
  rewrite (ltb_false 20 (hip_y s - hip_y s)) by lra.
  rewrite (ltb_false 20 0) by lra. rewrite andb_false_r. reflexivity.
Qed.

Lemma vj_step_counter (self : Counters) (s : Sample) (b m : R) (n : Z) :
  vertical_jump self = mkJump (Some b) m n ->
  vertical_jump (fst (vertical_jump_step self s)) =
  let jump_height := height_above b s in
  if Py.ltb 20 jump_height then
    if Py.ltb m jump_height then mkJump (Some b) jump_height n
    else mkJump (Some b) m n
  else if Py.ltb jump_height 10 && Py.ltb 20 m then mkJump (Some b) 0 (n + 1)
  else mkJump (Some b) m n.
Proof.
  intros H. unfold vertical_jump_step, process_vertical_jump.
  cbn [fst vertical_jump set_vertical_jump]. rewrite H. reflexivity.
Qed.

Lemma vj_step_record (self : Counters) (s : Sample) :
  metric (snd (snd (vertical_jump_step self s))) "jump_count" =
    Some (MInt (jumps (vertical_jump (fst (vertical_jump_step self s)))))
  /\ metric (snd (snd (vertical_jump_step self s))) "max_height" =
    Some (MInt (Py.int (max_height (vertical_jump (fst (vertical_jump_step self s)))))).
Proof. split; reflexivity. Qed.

(** On the way up no landing is counted, and the recorded peak stays
    either 0 or above 20 and below the height reached. *)
Lemma vj_rising (b hi : R) (l : list Sample) (self : Counters) (lo m : R) :
  vertical_jump self = mkJump (Some b) m 0 ->
  m <= lo -> (m = 0 \/ 20 < m) ->
  climbs lo hi (map (height_above b) l) ->
  exists m', vertical_jump (fst (run vertical_jump_step self l)) = mkJump (Some b) m' 0
             /\ m' <= hi /\ (m' = 0 \/ 20 < m').
Proof.
  revert self lo m. induction l as [| s l IH]; intros self lo m Hst Hm Hm' Hcl.
  - simpl in Hcl. exists m. simpl. repeat split; [exact Hst | lra | exact Hm'].
  - simpl in Hcl. destruct Hcl as [Hlo Hcl].
    cbn [run fst].
    pose proof (vj_step_counter self s b m 0 Hst) as Hstep. cbv zeta in Hstep.
    set (v := height_above b s) in *.
    destruct (Rlt_dec 20 v) as [Hv | Hv].
    + rewrite (ltb_true 20 v Hv) in Hstep.
      destruct (Rlt_dec m v) as [Hmv | Hmv].
      * rewrite (ltb_true m v Hmv) in Hstep.
        apply (IH _ v v Hstep); [lra | right; exact Hv | exact Hcl].
      * rewrite (ltb_false m v) in Hstep by lra.
        apply (IH _ v m Hstep); [lra | exact Hm' | exact Hcl].
    + rewrite (ltb_false 20 v) in Hstep by lra.
      assert (m = 0) by (destruct Hm'; lra). subst m.
      rewrite (ltb_false 20 0) in Hstep by lra. rewrite andb_false_r in Hstep.
      apply (IH _ v 0 Hstep); [lra | left; reflexivity | exact Hcl].
Qed.

Lemma descends_bound (hi lo : R) (l : list R) :
  descends hi lo l -> Forall (fun v => v <= hi) l.
Proof.
  revert hi. induction l as [| v l IH]; intros hi Hd; [constructor |].
  simpl in Hd. destruct Hd as [Hv Hd]. constructor; [exact Hv |].
  apply IH in Hd. eapply Forall_impl; [| exact Hd]. simpl. intros; lra.
Qed.

(** After the landing has been counted, frames at most 20 pixels above
    the baseline change nothing. *)
Lemma vj_landed_stay (b : R) (n : Z) (l : list Sample) (self : Counters) :
  vertical_jump self = mkJump (Some b) 0 n ->
  Forall (fun v => v <= 20) (map (height_above b) l) ->
  vertical_jump (fst (run vertical_jump_step self l)) = mkJump (Some b) 0 n.
Proof.
  revert self. induction l as [| s l IH]; intros self Hst Hall; [exact Hst |].
  simpl in Hall. inversion Hall as [| ? ? Hv Hrest]; subst.
  cbn [run fst]. apply IH; [| exact Hrest].
  rewrite (vj_step_counter self s b 0 n Hst). cbv zeta.
  rewrite (ltb_false 20 (height_above b s)) by lra.
  rewrite (ltb_false 20 0) by lra. rewrite andb_false_r. reflexivity.
Qed.

(** On the way down from a recorded peak above 20, the landing is
    counted exactly once, at the latest on the frame back at the
    baseline. *)
Lemma vj_falling (b top : R) (last_one : Sample) (l : list Sample)
    (self : Counters) (hi : R) :
  20 < top -> hip_y last_one = b ->
  vertical_jump self = mkJump (Some b) top 0 ->
  hi <= top ->
  descends hi 0 (map (height_above b) l) ->
  vertical_jump (fst (run vertical_jump_step self (l ++ [last_one]))) =
  mkJump (Some b) 0 1.
Proof.
  intros Htop Hlast. revert self hi.
  induction l as [| s l IH]; intros self hi Hst Hhi Hd.
  - cbn [app run fst].
    rewrite (vj_step_counter self last_one b top 0 Hst). cbv zeta.
    unfold height_above. rewrite Hlast.
    rewrite (ltb_false 20 (b - b)) by lra.
    rewrite (ltb_true (b - b) 10) by lra.
    rewrite (ltb_true 20 top) by lra. reflexivity.
  - simpl in Hd. destruct Hd as [Hv Hd].
    change ((s :: l) ++ [last_one]) with (s :: (l ++ [last_one])).
    cbn [run fst].
    pose proof (vj_step_counter self s b top 0 Hst) as Hstep. cbv zeta in Hstep.
    set (v := height_above b s) in *.
    destruct (Rlt_dec 20 v) as [Hv20 | Hv20].
    + rewrite (ltb_true 20 v Hv20) in Hstep.
      rewrite (ltb_false top v) in Hstep by lra.
      apply (IH _ v Hstep); [lra | exact Hd].
    + rewrite (ltb_false 20 v) in Hstep by lra.
      rewrite (ltb_true 20 top Htop), andb_true_r in Hstep.
      destruct (Rlt_dec v 10) as [Hv10 | Hv10].
      * rewrite (ltb_true v 10 Hv10) in Hstep.
        apply vj_landed_stay; [exact Hstep |].
        rewrite map_app. apply Forall_app. split.
        -- apply descends_bound in Hd.
           eapply Forall_impl; [| exact Hd]. simpl. intros; lra.
        -- constructor; [| constructor].
           unfold height_above. rewrite Hlast. lra.
      * rewrite (ltb_false v 10) in Hstep by lra.
        apply (IH _ v Hstep); [lra | exact Hd].
Qed.

(** One jump of a height above 20 pixels, from the counters of
    [__init__]. *)
Lemma vj_one_jump (top : R) (t : JumpTrace) :
  20 < top -> jump_of top t ->
  vertical_jump (fst (run vertical_jump_step init (jump_samples t))) =
  mkJump (Some (hip_y (stand t))) 0 1.
Proof.
  intros Htop (Hrise & Hpeak & Hfall & Hland).
  set (b := hip_y (stand t)) in *.
  unfold jump_samples. cbn [run fst].
  pose proof (vj_step_first init (stand t) eq_refl) as H0. fold b in H0.
  rewrite run_app. cbn [fst].
  destruct (vj_rising b top (rising t) _ 0 0 H0 (Rle_refl 0) (or_introl eq_refl) Hrise)
    as (m & Hm & Hmtop & Hm0).
  set (s1 := fst (run vertical_jump_step (fst (vertical_jump_step init (stand t)))
                      (rising t))) in *.
  cbn [run fst].
  assert (Hp : vertical_jump (fst (vertical_jump_step s1 (peak t))) =
               mkJump (Some b) top 0).
  { rewrite (vj_step_counter s1 (peak t) b m 0 Hm). cbv zeta.
    unfold height_above. rewrite Hpeak.
    replace (b - (b - top)) with top by ring.
    rewrite (ltb_true 20 top Htop).
    destruct (Rlt_dec m top) as [Hlt | Hge].
    - rewrite (ltb_true m top Hlt). reflexivity.
    - rewrite (ltb_false m top) by lra. f_equal. lra. }
  apply (vj_falling b top (landing t) (falling t) _ top Htop Hland Hp (Rle_refl top) Hfall).
Qed.

(** C8: from the counters of [__init__], a trace whose hip rises to 30
    pixels above its position on the first frame and then returns to
    that position ends with [jumps] equal to 1 and [max_height] equal
    to 0, with the first frame's hip position as baseline; the last
    record reports [jump_count] 1 and [max_height] 0. *)
Theorem vertical_jump_30_counts_once (t : JumpTrace) :
  jump_of 30 t ->
  let r := run vertical_jump_step init (jump_samples t) in
  vertical_jump (fst r) = mkJump (Some (hip_y (stand t))) 0 1
  /\ metric (last (snd r) []) "jump_count" = Some (MInt 1)
  /\ metric (last (snd r) []) "max_height" = Some (MInt 0).
Proof.
  intros Hjump r.
  assert (Hfinal : vertical_jump (fst r) = mkJump (Some (hip_y (stand t))) 0 1)
    by (apply (vj_one_jump 30); [lra | exact Hjump]).
  split; [exact Hfinal |].
  assert (Hne : jump_samples t <> []) by (unfold jump_samples; discriminate).
  pose proof (run_last vertical_jump_step
                (fun self m =>
                   metric m "jump_count" = Some (MInt (jumps (vertical_jump self)))
                   /\ metric m "max_height" =
                      Some (MInt (Py.int (max_height (vertical_jump self)))))
                vj_step_record (jump_samples t) init Hne) as [Hj Hm].
  fold r in Hj, Hm. rewrite Hj, Hm, Hfinal. cbn [jumps max_height].
  rewrite int_0. split; reflexivity.
Qed.

End VerticalJump.

(** ** The dispatcher *)

Section Dispatcher.

Import PoseProcessor Kinds.

(** C1: for every exercise name, every counter state and every frame in
    which the pose model detects nothing, [process_frame] returns the
    frame as it received it with an empty metrics record, and the
    counters of all five exercises are the ones it was given. *)
Theorem process_frame_no_detection
    (self : Counters) (shp : Z * Z) (drawn : bool) (exercise : string)
    (time : Clock) :
  process_frame self (mkFrame shp None drawn) exercise time =
  (self, (mkFrame shp None drawn, [])).
Proof. reflexivity. Qed.

Lemma count_logic_mono (counter : RepCounter) (down up : bool) :
  count counter <= count (count_logic counter down up).
Proof.
  unfold count_logic.
  destruct down, up, (direction counter =? 0)%Z, (direction counter =? 1)%Z;
    simpl; lra.
Qed.

(** C6: one call of [process_frame], for any exercise name, frame and
    counter state, leaves the [count] of jumping jacks, push-ups and
    sit-ups and the [jumps] of the vertical jump at least as large as
    they were. *)
Theorem process_frame_counts_monotone
    (self : Counters) (frame : Frame) (exercise : string) (time : Clock) :
  let self' := fst (process_frame self frame exercise time) in
  count (jumping_jacks self) <= count (jumping_jacks self')
  /\ count (push_ups self) <= count (push_ups self')
  /\ count (sit_ups self) <= count (sit_ups self')
  /\ (jumps (vertical_jump self) <= jumps (vertical_jump self'))%Z.
Proof.
  unfold process_frame.
  destruct (pose_landmarks frame) as [landmarks |];
    [| simpl; repeat split; try lra; lia].
  destruct (shape frame) as [h w]. cbn [shape].
  destruct (String.eqb exercise "jumping_jacks").
  { cbn -[count_logic]. repeat split; try lra; try lia. apply count_logic_mono. }
  destruct (String.eqb exercise "push_ups").
  { cbn -[count_logic calculate_angle]. repeat split; try lra; try lia.
    apply count_logic_mono. }
  destruct (String.eqb exercise "sit_ups").
  { cbn -[count_logic calculate_angle]. repeat split; try lra; try lia.
    apply count_logic_mono. }
  destruct (String.eqb exercise "plank").
  { cbn -[calculate_angle]. repeat split; try lra; lia. }
  destruct (String.eqb exercise "vertical_jump").
  { unfold process_vertical_jump. cbn [fst vertical_jump jumping_jacks push_ups sit_ups set_vertical_jump].
    repeat split; try lra.
    destruct (Py.ltb 20 _); [destruct (Py.ltb (max_height _) _); simpl; lia |].
    destruct (_ && _); simpl; lia. }
  simpl. repeat split; try lra; lia.
Qed.

Lemma reset_counter_known (k : Kind) (self : Counters) :
  reset_counter self (Some (kind_name k)) = with_fresh k self.
Proof. destruct k; reflexivity. Qed.

Lemma reset_counter_unknown (kind : string) (self : Counters) :
  ~ In kind known_kinds -> reset_counter self (Some kind) = self.
Proof.
  intros Hout. unfold reset_counter, Py.str_eq.
  assert (Hne : forall lit, In lit known_kinds -> String.eqb kind lit = false).
  { intros lit Hin. apply String.eqb_neq. intros ->. contradiction. }
  rewrite !Hne by (simpl; tauto). reflexivity.
Qed.

End Dispatcher.

(** ** The application routes *)

Section Routes.

Import PoseProcessor Kinds App Examples.

Lemma one_jack_counters :
  pose_processor one_jack = set_jumping_jacks init (mkRep (0 + 0.5 + 0.5) 0).
Proof. run_engine. settle_ltb. reflexivity. Qed.

Lemma one_jack_record :
  session_exercises one_jack "jumping_jacks" =
  Some (mkEntry [ ("count"%string, MInt 1); ("form_score"%string, MInt 70);
                  ("status"%string, MStr "Down") ] "t2").
Proof.
  run_engine. settle_ltb. cbv iota.
  replace (0 + 5 * / 10 + 5 * / 10) with (IZR 1) by lra.
  rewrite int_IZR by lia. reflexivity.
Qed.

Lemma one_jack_selected : current_exercise one_jack = Some "jumping_jacks"%string.
Proof. reflexivity. Qed.

(** C3 as stated fails: after a session with one completed jumping
    jack, selecting jumping jacks again and processing a frame leaves
    [count] at 0, not at the 1 it had before the selection. *)
Lemma selection_resets_count :
  let selected := fst (set_exercise one_jack (Some "jumping_jacks"%string)) in
  let after := fst (generate_frames_step selected empty_frame "t3" (mkClock 3 3)) in
  count (jumping_jacks (pose_processor one_jack)) = 1
  /\ count (jumping_jacks (pose_processor after)) = 0
  /\ pose_processor after <> pose_processor one_jack.
Proof.
  assert (H1 : count (jumping_jacks (pose_processor one_jack)) = 1)
    by (rewrite one_jack_counters; simpl; lra).
  split; [exact H1 |]. split; [reflexivity |].
  intros Heq. rewrite <- Heq in H1. simpl in H1. lra.
Qed.

(** C3, amended: [set_exercise] with one of the five kinds puts that
    kind's counters back to their initial values, keeps the counters of
    the other four kinds and the stored records, makes the kind the
    active exercise and answers success. *)
Theorem set_exercise_resets_selected (g : Globals) (k : Kind) :
  set_exercise g (Some (kind_name k)) =
  (mkGlobals (with_fresh k (pose_processor g)) (Some (kind_name k))
             (session_exercises g),
   mkSetResp "success" (Some (kind_name k))).
Proof.
  unfold set_exercise. cbn [current_exercise].
  rewrite reset_counter_known. reflexivity.
Qed.

(** C4 as stated fails: after a session with one completed jumping
    jack, a reset zeroes the counter, yet [get_metrics] still answers
    with [count] 1. *)
Lemma reset_then_get_metrics_is_stale :
  let g := fst (reset_exercise one_jack) in
  jumping_jacks (pose_processor g) = mkRep 0 0
  /\ get_metrics g "t3" =
     Answer (mkMetricsResp (Some "jumping_jacks"%string)
                           [ ("count"%string, MInt 1);
                             ("form_score"%string, MInt 70);
                             ("status"%string, MStr "Down") ]
                           (Some "t3"%string)).
Proof.
  cbv zeta. split; [reflexivity |].
  unfold get_metrics, reset_exercise.
  cbn [fst current_exercise session_exercises]. rewrite one_jack_selected.
  cbn [Py.truthy current_exercise session_exercises].
  rewrite one_jack_record. reflexivity.
Qed.

(** C4, amended: [reset_exercise] followed by [get_metrics] gives
    exactly what [get_metrics] gave before the reset: the record stored
    for the last processed frame of the active exercise, the empty
    answer when none is stored, or the same [TypeError] when the stored
    record cannot be serialised; the reset touches the counters of the
    active exercise only, not the stored records. *)
Theorem reset_keeps_stored_record (g : Globals) (now : string) :
  get_metrics (fst (reset_exercise g)) now = get_metrics g now
  /\ session_exercises (fst (reset_exercise g)) = session_exercises g
  /\ current_exercise (fst (reset_exercise g)) = current_exercise g
  /\ pose_processor (fst (reset_exercise g)) =
     if Py.truthy (current_exercise g)
     then reset_counter (pose_processor g) (current_exercise g)
     else pose_processor g.
Proof.
  unfold reset_exercise, get_metrics. cbn [fst].
  destruct (Py.truthy (current_exercise g)) eqn:Ht; cbn [current_exercise session_exercises pose_processor];
    rewrite ?Ht; repeat split; reflexivity.
Qed.

(** C5 as stated fails: a selection with the unknown kind yoga is
    answered with success and yoga becomes the active exercise. *)
Lemma unknown_kind_is_accepted :
  ~ In "yoga"%string known_kinds
  /\ snd (set_exercise start (Some "yoga"%string)) =
     mkSetResp "success" (Some "yoga"%string)
  /\ current_exercise (fst (set_exercise start (Some "yoga"%string))) =
     Some "yoga"%string.
Proof.
  split; [| split; reflexivity].
  simpl. intros [H | [H | [H | [H | [H | []]]]]]; discriminate.
Qed.

(** C5, amended: for a kind outside the five names, [set_exercise] is
    accepted with a success answer and makes the kind the active
    exercise, [reset_counter] and [reset_exercise] do nothing, and
    frames processed for it give an empty record; none of them changes
    the counters of any exercise. *)
Theorem unknown_kind_changes_no_counter (g : Globals) (kind : string) :
  ~ In kind known_kinds ->
  set_exercise g (Some kind) =
    (mkGlobals (pose_processor g) (Some kind) (session_exercises g),
     mkSetResp "success" (Some kind))
  /\ reset_counter (pose_processor g) (Some kind) = pose_processor g
  /\ pose_processor (fst (reset_exercise (fst (set_exercise g (Some kind))))) =
     pose_processor g
  /\ (forall self frame time,
        fst (process_frame self frame kind time) = self
        /\ snd (snd (process_frame self frame kind time)) = []).
Proof.
  intros Hout.
  pose proof (reset_counter_unknown kind (pose_processor g) Hout) as Hreset.
  split; [unfold set_exercise; cbn [current_exercise]; rewrite Hreset; reflexivity |].
  split; [exact Hreset |]. split.
  - unfold reset_exercise, set_exercise.
    cbn [fst current_exercise pose_processor session_exercises].
    destruct (Py.truthy (Some kind)); cbn [pose_processor];
      rewrite ?Hreset; try rewrite reset_counter_unknown by exact Hout; reflexivity.
  - intros self frame time. unfold process_frame.
    assert (Hne : forall lit, In lit known_kinds -> String.eqb kind lit = false).
    { intros lit Hin. apply String.eqb_neq. intros ->. contradiction. }
    destruct (pose_landmarks frame); [| split; reflexivity].
    destruct (shape frame) as [h w]. cbn [shape].
    rewrite !Hne by (simpl; tauto). split; reflexivity.
Qed.

Lemma unknown_kind_changes_no_counter_witness :
  set_exercise start (Some "yoga"%string) =
    (mkGlobals (pose_processor start) (Some "yoga"%string) (session_exercises start),
     mkSetResp "success" (Some "yoga"%string))
  /\ reset_counter (pose_processor start) (Some "yoga"%string) = pose_processor start
  /\ pose_processor
       (fst (reset_exercise (fst (set_exercise start (Some "yoga"%string))))) =
     pose_processor start
  /\ (forall self frame time,
        fst (process_frame self frame "yoga" time) = self
        /\ snd (snd (process_frame self frame "yoga" time)) = []).
Proof.
  apply (unknown_kind_changes_no_counter start "yoga").
  simpl. intros [H | [H | [H | [H | [H | []]]]]]; discriminate.
Defined.

End Routes.

(** ** The properties on concrete sessions *)

Section Sessions.

Import PoseProcessor Geometry Trace Examples.

Lemma jj_open_example : jj_open open_sample = true.
Proof. run_engine. settle_ltb. reflexivity. Qed.

Lemma jj_closed_example : jj_open closed_sample = false.
Proof. run_engine. settle_ltb. reflexivity. Qed.

Lemma jack_is_cycle : is_cycle jack = true.
Proof.
  unfold is_cycle, jack, jj_closed. cbn [forallb open_first open_rest closed_first closed_rest].
  rewrite jj_open_example, jj_closed_example. reflexivity.
Qed.

(** Three jumping jacks after one idle frame count 3. *)
Lemma jumping_jacks_counts_cycles_witness :
  let samples := [closed_sample] ++ flat_map cycle_samples [jack; jack; jack] in
  let r := run jumping_jacks_step init samples in
  jumping_jacks (fst r) = mkRep (INR 3) 0
  /\ List.length (snd r) = List.length samples
  /\ (samples <> [] -> metric (last (snd r) []) "count" = Some (MInt 3)).
Proof.
  apply (jumping_jacks_counts_cycles [closed_sample] [jack; jack; jack]).
  - unfold jj_closed. cbn [forallb]. rewrite jj_closed_example. reflexivity.
  - repeat constructor; apply jack_is_cycle.
Defined.

Lemma arctan2_axis_pos (dy dx : R) : dy = 0 -> 0 < dx -> Py.arctan2 dy dx = 0.
Proof.
  intros -> Hx. unfold Py.arctan2.
  destruct (Rlt_dec 0 dx); [| contradiction].
  rewrite div_zero_l. apply atan_0.
Qed.

Lemma arctan2_axis_neg (dy dx : R) : dy = 0 -> dx < 0 -> Py.arctan2 dy dx = PI.
Proof.
  intros -> Hx. unfold Py.arctan2.
  destruct (Rlt_dec 0 dx); [lra |].
  destruct (Rlt_dec dx 0); [| contradiction].
  destruct (Rle_dec 0 0); [| lra].
  rewrite div_zero_l, atan_0. lra.
Qed.

Lemma arctan2_origin (dy dx : R) : dy = 0 -> dx = 0 -> Py.arctan2 dy dx = 0.
Proof.
  intros -> ->. unfold Py.arctan2.
  destruct (Rlt_dec 0 0); [lra |]. reflexivity.
Qed.



Lemma two_holds_durations : sum (map duration two_holds) = 5.
Proof. unfold sum, duration, two_holds. simpl. lra. Qed.


Lemma hop_is_jump : jump_of 30 hop.
Proof.
  unfold jump_of, hop, height_above, hip_y, hips_at.
  cbn [stand rising peak falling landing map climbs descends s_landmarks s_h y].
  repeat split; lra.
Qed.

(** A hop from row 240 up to row 210 and back is counted once. *)
Lemma vertical_jump_30_counts_once_witness :
  let r := run vertical_jump_step init (jump_samples hop) in
  vertical_jump (fst r) = mkJump (Some (hip_y (stand hop))) 0 1
  /\ metric (last (snd r) []) "jump_count" = Some (MInt 1)
  /\ metric (last (snd r) []) "max_height" = Some (MInt 0).
Proof. apply (vertical_jump_30_counts_once hop). apply hop_is_jump. Defined.

(** A right angle at the origin, mirrored and doubled. *)
Lemma calculate_angle_invariant_witness :
  calculate_angle (mirror (1, 0)) (mirror (0, 0)) (mirror (0, 1)) =
    calculate_angle (1, 0) (0, 0) (0, 1)
  /\ calculate_angle (scale 2 (1, 0)) (scale 2 (0, 0)) (scale 2 (0, 1)) =
    calculate_angle (1, 0) (0, 0) (0, 1).
Proof.
  apply (calculate_angle_invariant 2 (1, 0) (0, 0) (0, 1)).
  - intros H. apply (f_equal fst) in H. simpl in H. lra.
  - intros H. apply (f_equal snd) in H. simpl in H. lra.
  - lra.
Defined.

End Sessions.

(** * Further properties of the code *)

(** ** The angle utility: symmetries and special positions *)

Section AngleMore.

Import PoseProcessor Geometry Planar.



(** X1: the two outer points can be exchanged. *)
Theorem calculate_angle_swap (a b c : Point) :
  calculate_angle c b a = calculate_angle a b c.
Proof.
  rewrite !calculate_angle_fold.
  replace (Py.arctan2 (snd a - snd b) (fst a - fst b)
           - Py.arctan2 (snd c - snd b) (fst c - fst b))
    with (- (Py.arctan2 (snd c - snd b) (fst c - fst b)
             - Py.arctan2 (snd a - snd b) (fst a - fst b))) by ring.
  rewrite deg_opp. apply fold180_opp.
Qed.

Lemma fold180_0 : fold180 0 = 0.
Proof. unfold fold180. rewrite Rabs_R0, (ltb_false 180 0) by lra. reflexivity. Qed.

(** X4: a third point on the ray from [b] through [a] gives the angle 0. *)
Theorem calculate_angle_same_ray (a b : Point) (k : R) :
  0 < k -> calculate_angle a b (along b a k) = 0.
Proof.
  intros Hk. rewrite calculate_angle_fold. unfold along; simpl.
  replace (snd b + k * (snd a - snd b) - snd b) with (k * (snd a - snd b)) by ring.
  replace (fst b + k * (fst a - fst b) - fst b) with (k * (fst a - fst b)) by ring.
  rewrite arctan2_scale by exact Hk.
  replace ((Py.arctan2 (snd a - snd b) (fst a - fst b)
            - Py.arctan2 (snd a - snd b) (fst a - fst b)) * 180 / PI)
    with 0 by (field; apply PI_neq0).
  apply fold180_0.
Qed.

Lemma calculate_angle_same_ray_witness :
  calculate_angle (1, 0) (0, 0) (along (0, 0) (1, 0) 2) = 0.
Proof. apply (calculate_angle_same_ray (1, 0) (0, 0) 2). lra. Defined.

End AngleMore.

(** ** Push-ups and sit-ups count repetitions *)

Lemma ltb_iff_lt (a b : R) : Py.ltb a b = true -> a < b.
Proof. unfold Py.ltb. destruct (Rlt_dec a b); [trivial | discriminate]. Qed.

Lemma ltb_false_le (a b : R) : Py.ltb a b = false -> b <= a.
Proof. unfold Py.ltb. destruct (Rlt_dec a b); [discriminate | lra]. Qed.

Section Repetitions.

Import PoseProcessor Trace Reps.

(** A repetition machine: a step whose counter moves by [count_logic] on
    the tests [angle < lo] and [angle > hi]. *)
Context (step : Counters -> Sample -> Counters * Output)
        (proj : Counters -> RepCounter)
        (angle : Sample -> R) (lo hi : R).
Hypothesis lo_le_hi : lo <= hi.
Hypothesis step_counter : forall self s,
  proj (fst (step self s)) =
  count_logic (proj self) (Py.ltb (angle s) lo) (Py.ltb hi (angle s)).

Lemma rep_not_below_stay (l : list Sample) (self : Counters) :
  forallb (not_below lo angle) l = true -> direction (proj self) = 0%Z ->
  proj (fst (run step self l)) = proj self.
Proof.
  revert self. induction l as [| s l IH]; intros self Hall Hdir; [reflexivity |].
  simpl in Hall. apply andb_prop in Hall as [Hs Hl].
  unfold not_below in Hs. apply negb_true_iff in Hs.
  cbn [run fst].
  assert (Hc : proj (fst (step self s)) = proj self).
  { rewrite step_counter. unfold count_logic. rewrite Hs, Hdir.
    destruct (Py.ltb hi (angle s)); reflexivity. }
  rewrite IH; [exact Hc | exact Hl | rewrite Hc; exact Hdir].
Qed.

Lemma rep_not_above_stay (l : list Sample) (self : Counters) :
  forallb (not_above hi angle) l = true -> direction (proj self) = 1%Z ->
  proj (fst (run step self l)) = proj self.
Proof.
  revert self. induction l as [| s l IH]; intros self Hall Hdir; [reflexivity |].
  simpl in Hall. apply andb_prop in Hall as [Hs Hl].
  unfold not_above in Hs. apply negb_true_iff in Hs.
  cbn [run fst].
  assert (Hc : proj (fst (step self s)) = proj self).
  { rewrite step_counter. unfold count_logic. rewrite Hs, Hdir.
    destruct (Py.ltb (angle s) lo); reflexivity. }
  rewrite IH; [exact Hc | exact Hl | rewrite Hc; exact Hdir].
Qed.

Lemma rep_one (r : Rep) (self : Counters) :
  is_rep lo hi angle r = true -> direction (proj self) = 0%Z ->
  proj (fst (run step self (rep_samples r))) =
  mkRep (count (proj self) + 1) 0.
Proof.
  intros Hr Hdir. unfold is_rep in Hr.
  apply andb_prop in Hr as [Hr Hup].
  apply andb_prop in Hr as [Hr Hgo].
  apply andb_prop in Hr as [Hdown Hstay].
  assert (Hnd : Py.ltb (angle (go_up r)) lo = false).
  { apply ltb_iff_lt in Hgo. apply ltb_false. lra. }
  unfold rep_samples. rewrite run_app. cbn [fst].
  set (s1 := fst (run step self (go_down r :: stay_down r))).
  assert (H1 : proj s1 = mkRep (count (proj self) + 0.5) 1).
  { unfold s1. cbn [run fst].
    assert (Hf : proj (fst (step self (go_down r)))
                 = mkRep (count (proj self) + 0.5) 1).
    { rewrite step_counter. unfold count_logic. rewrite Hdown, Hdir. reflexivity. }
    rewrite rep_not_above_stay; [exact Hf | exact Hstay | rewrite Hf; reflexivity]. }
  cbn [run fst].
  assert (Hf : proj (fst (step s1 (go_up r))) = mkRep (count (proj self) + 1) 0).
  { rewrite step_counter. unfold count_logic. rewrite Hnd, Hgo, H1. simpl.
    f_equal. lra. }
  rewrite rep_not_below_stay; [exact Hf | exact Hup | rewrite Hf; reflexivity].
Qed.

Lemma rep_many (reps : list Rep) (self : Counters) :
  Forall (fun r => is_rep lo hi angle r = true) reps ->
  direction (proj self) = 0%Z ->
  proj (fst (run step self (flat_map rep_samples reps))) =
  mkRep (count (proj self) + INR (List.length reps)) 0.
Proof.
  revert self. induction reps as [| r reps IH]; intros self Hall Hdir.
  - simpl. destruct (proj self) as [n d]; simpl in *. subst d. f_equal. lra.
  - inversion Hall as [| ? ? Hr Hrest]; subst.
    cbn [flat_map]. rewrite run_app. cbn [fst].
    rewrite IH; [| exact Hrest | rewrite (rep_one r self Hr Hdir); reflexivity].
    rewrite (rep_one r self Hr Hdir). cbn [count].
    f_equal. change (List.length (r :: reps)) with (S (List.length reps)).
    rewrite S_INR. lra.
Qed.

Lemma rep_session (idle : list Sample) (reps : list Rep) (self : Counters) :
  proj self = mkRep 0 0 ->
  forallb (not_below lo angle) idle = true ->
  Forall (fun r => is_rep lo hi angle r = true) reps ->
  proj (fst (run step self (idle ++ flat_map rep_samples reps))) =
  mkRep (INR (List.length reps)) 0.
Proof.
  intros H0 Hidle Hreps. rewrite run_app. cbn [fst].
  assert (Hi : proj (fst (run step self idle)) = proj self)
    by (apply rep_not_below_stay; [exact Hidle | rewrite H0; reflexivity]).
  rewrite rep_many; [| exact Hreps | rewrite Hi, H0; reflexivity].
  rewrite Hi, H0. simpl. f_equal. lra.
Qed.

End Repetitions.

Section PushUpsSitUps.

Import PoseProcessor Trace Reps Measured Examples Cases.

(** At the exact gauges the methods on measured angles are the methods
    of the embedding. *)
Lemma process_push_ups_exact (self : Counters) (frame : Frame)
    (landmarks : Landmarks) (w h : Z) :
  process_push_ups_with exact_arm exact_body self frame landmarks w h =
  process_push_ups self frame landmarks w h.
Proof. reflexivity. Qed.

Lemma process_sit_ups_exact (self : Counters) (frame : Frame)
    (landmarks : Landmarks) (w h : Z) :
  process_sit_ups_with exact_body self frame landmarks w h =
  process_sit_ups self frame landmarks w h.
Proof. reflexivity. Qed.

Lemma push_ups_step_counter (arm body : Gauge) (self : Counters) (s : Sample) :
  push_ups (fst (push_ups_step_with arm body self s)) =
  count_logic (push_ups self) (Py.ltb (gauged arm s) 90)
              (Py.ltb 160 (gauged arm s)).
Proof. reflexivity. Qed.

Lemma sit_ups_step_counter (torso : Gauge) (self : Counters) (s : Sample) :
  sit_ups (fst (sit_ups_step_with torso self s)) =
  count_logic (sit_ups self) (Py.ltb (gauged torso s) 90)
              (Py.ltb 150 (gauged torso s)).
Proof. reflexivity. Qed.

Lemma push_ups_step_record (arm body : Gauge) (self : Counters) (s : Sample) :
  metric (snd (snd (push_ups_step_with arm body self s))) "count" =
  Some (MInt (Py.int (count (push_ups (fst (push_ups_step_with arm body self s)))))).
Proof. reflexivity. Qed.

Lemma sit_ups_step_record (torso : Gauge) (self : Counters) (s : Sample) :
  metric (snd (snd (sit_ups_step_with torso self s))) "count" =
  Some (MInt (Py.int (count (sit_ups (fst (sit_ups_step_with torso self s)))))).
Proof. reflexivity. Qed.

(** X7: whatever values the angle utility returns on the frames
    (rounding included), from the counters of [__init__] N push-ups
    count N.  A push-up is a frame whose measured elbow angle is below
    90, any frames with it at most 160, a frame with it above 160 and
    any frames with it at least 90; frames measured from 90 to 160 never
    move the counter, and frames measured at least 90 may come first. *)
Theorem push_ups_count_reps (arm body : Gauge)
    (idle : list Sample) (reps : list Rep) :
  forallb (not_below 90 (gauged arm)) idle = true ->
  Forall (fun r => is_rep 90 160 (gauged arm) r = true) reps ->
  let samples := idle ++ flat_map rep_samples reps in
  let r := run (push_ups_step_with arm body) init samples in
  push_ups (fst r) = mkRep (INR (List.length reps)) 0
  /\ (samples <> [] ->
      metric (last (snd r) []) "count" =
      Some (MInt (Z.of_nat (List.length reps)))).
Proof.
  intros Hidle Hreps samples r.
  assert (Hfinal : push_ups (fst r) = mkRep (INR (List.length reps)) 0).
  { apply (rep_session (push_ups_step_with arm body) push_ups (gauged arm) 90 160);
      [lra | exact (push_ups_step_counter arm body) | reflexivity
       | exact Hidle | exact Hreps]. }
  split; [exact Hfinal |]. intros Hne.
  pose proof (run_last (push_ups_step_with arm body)
                (fun self m => metric m "count" =
                               Some (MInt (Py.int (count (push_ups self)))))
                (push_ups_step_record arm body) samples init Hne) as Hlast.
  fold r in Hlast. rewrite Hlast, Hfinal. cbn [count].
  rewrite int_INR. reflexivity.
Qed.

(** X8: whatever values the angle utility returns on the frames
    (rounding included), from the counters of [__init__] N sit-ups count
    N.  A sit-up is a frame whose measured shoulder-hip-knee angle is
    below 90, any frames with it at most 150, a frame with it above 150
    and any frames with it at least 90; frames measured from 90 to 150
    never move the counter. *)
Theorem sit_ups_count_reps (torso : Gauge)
    (idle : list Sample) (reps : list Rep) :
  forallb (not_below 90 (gauged torso)) idle = true ->
  Forall (fun r => is_rep 90 150 (gauged torso) r = true) reps ->
  let samples := idle ++ flat_map rep_samples reps in
  let r := run (sit_ups_step_with torso) init samples in
  sit_ups (fst r) = mkRep (INR (List.length reps)) 0
  /\ (samples <> [] ->
      metric (last (snd r) []) "count" =
      Some (MInt (Z.of_nat (List.length reps)))).
Proof.
  intros Hidle Hreps samples r.
  assert (Hfinal : sit_ups (fst r) = mkRep (INR (List.length reps)) 0).
  { apply (rep_session (sit_ups_step_with torso) sit_ups (gauged torso) 90 150);
      [lra | exact (sit_ups_step_counter torso) | reflexivity
       | exact Hidle | exact Hreps]. }
  split; [exact Hfinal |]. intros Hne.
  pose proof (run_last (sit_ups_step_with torso)
                (fun self m => metric m "count" =
                               Some (MInt (Py.int (count (sit_ups self)))))
                (sit_ups_step_record torso) samples init Hne) as Hlast.
  fold r in Hlast. rewrite Hlast, Hfinal. cbn [count].
  rewrite int_INR. reflexivity.
Qed.

(** Angles of the concrete samples. *)
Lemma angle_coincident (a b c : Point) :
  a = b -> c = b -> calculate_angle a b c = 0.
Proof.
  intros -> ->. unfold calculate_angle.
  rewrite !arctan2_origin by lra.
  replace ((0 - 0) * 180 / PI) with 0 by (field; apply PI_neq0).
  rewrite Rabs_R0, (ltb_false 180 0) by lra. reflexivity.
Qed.

Lemma angle_on_horizontal (a b c : Point) :
  snd a = snd b -> snd c = snd b -> fst a < fst b -> fst b < fst c ->
  calculate_angle a b c = 180.
Proof.
  intros Ha Hc Hab Hbc. unfold calculate_angle.
  rewrite arctan2_axis_pos by lra. rewrite arctan2_axis_neg by lra.
  replace ((0 - PI) * 180 / PI) with (- (180)) by (field; apply PI_neq0).
  rewrite Rabs_Ropp, Rabs_pos_eq by lra.
  rewrite (ltb_false 180 180) by lra. reflexivity.
Qed.

Lemma closed_angles :
  gauged exact_arm closed_sample = 0 /\ gauged exact_body closed_sample = 0.
Proof. split; apply angle_coincident; reflexivity. Qed.

Lemma line_angles :
  gauged exact_arm line_sample = 180 /\ gauged exact_body line_sample = 180.
Proof.
  split; apply angle_on_horizontal;
    unfold line_sample, lm_line; cbn [fst snd s_landmarks s_w s_h x y]; lra.
Qed.

Lemma one_rep_is_rep (hi : R) (angle : Sample -> R) :
  hi < 180 -> 90 <= hi ->
  angle closed_sample = 0 -> angle line_sample = 180 ->
  is_rep 90 hi angle one_rep = true.
Proof.
  intros Hhi Hlo H0 H180. unfold is_rep, one_rep, not_above, not_below.
  cbn [go_down stay_down go_up stay_up forallb]. rewrite H0, H180.
  rewrite (ltb_true 0 90), (ltb_false hi 0), (ltb_true hi 180), (ltb_false 180 90)
    by lra.
  reflexivity.
Qed.

(** Two push-ups after a frame with the arm straight, at the exact
    gauges. *)
Lemma push_ups_count_reps_witness :
  let samples := [line_sample] ++ flat_map rep_samples [one_rep; one_rep] in
  let r := run (push_ups_step_with exact_arm exact_body) init samples in
  push_ups (fst r) = mkRep (INR 2) 0
  /\ (samples <> [] -> metric (last (snd r) []) "count" = Some (MInt 2)).
Proof.
  apply (push_ups_count_reps exact_arm exact_body [line_sample] [one_rep; one_rep]).
  - unfold not_below. cbn [forallb]. rewrite (proj1 line_angles).
    rewrite (ltb_false 180 90) by lra. reflexivity.
  - repeat constructor;
      apply one_rep_is_rep; try lra;
      [apply (proj1 closed_angles) | apply (proj1 line_angles)
      | apply (proj1 closed_angles) | apply (proj1 line_angles)].
Defined.

Lemma sit_ups_count_reps_witness :
  let samples := [line_sample] ++ flat_map rep_samples [one_rep; one_rep] in
  let r := run (sit_ups_step_with exact_body) init samples in
  sit_ups (fst r) = mkRep (INR 2) 0
  /\ (samples <> [] -> metric (last (snd r) []) "count" = Some (MInt 2)).
Proof.
  apply (sit_ups_count_reps exact_body [line_sample] [one_rep; one_rep]).
  - unfold not_below. cbn [forallb]. rewrite (proj2 line_angles).
    rewrite (ltb_false 180 90) by lra. reflexivity.
  - repeat constructor;
      apply one_rep_is_rep; try lra;
      [apply (proj2 closed_angles) | apply (proj2 line_angles)
      | apply (proj2 closed_angles) | apply (proj2 line_angles)].
Defined.

End PushUpsSitUps.

(** ** Invariants of the counters *)

Section Invariants.

Import PoseProcessor Kinds Trace Reps Reach Stream.

(** What [process_frame] can do to the counters: nothing, or the step of
    one of the five methods. *)
Lemma process_frame_cases (self : Counters) (frame : Frame)
    (exercise : string) (time : Clock) :
  let self' := fst (process_frame self frame exercise time) in
  self' = self
  \/ (exists fr lm w h, self' = fst (process_jumping_jacks self fr lm w h))
  \/ (exists fr lm w h, self' = fst (process_push_ups self fr lm w h))
  \/ (exists fr lm w h, self' = fst (process_sit_ups self fr lm w h))
  \/ (exists fr lm w h, self' = fst (process_plank self fr lm w h time))
  \/ (exists fr lm w h, self' = fst (process_vertical_jump self fr lm w h)).
Proof.
  unfold process_frame.
  destruct (pose_landmarks frame) as [lm |]; [| left; reflexivity].
  destruct (shape frame) as [h w]. cbn [shape].
  destruct (String.eqb exercise "jumping_jacks");
    [right; left; do 4 eexists; reflexivity |].
  destruct (String.eqb exercise "push_ups");
    [right; right; left; do 4 eexists; reflexivity |].
  destruct (String.eqb exercise "sit_ups");
    [right; right; right; left; do 4 eexists; reflexivity |].
  destruct (String.eqb exercise "plank");
    [right; right; right; right; left; do 4 eexists; reflexivity |].
  destruct (String.eqb exercise "vertical_jump");
    [right; right; right; right; right; do 4 eexists; reflexivity |].
  left; reflexivity.
Qed.

(** The three repetition counters after [process_frame] are the old ones
    moved by [count_logic] on some pair of tests. *)
Lemma process_frame_reps (self : Counters) (frame : Frame)
    (exercise : string) (time : Clock) :
  let self' := fst (process_frame self frame exercise time) in
  (exists d u, jumping_jacks self' = count_logic (jumping_jacks self) d u)
  /\ (exists d u, push_ups self' = count_logic (push_ups self) d u)
  /\ (exists d u, sit_ups self' = count_logic (sit_ups self) d u).
Proof.
  cbv zeta.
  assert (Hid : forall c, c = count_logic c false false) by reflexivity.
  destruct (process_frame_cases self frame exercise time)
    as [E | [(fr & lm & w & h & E) | [(fr & lm & w & h & E)
       | [(fr & lm & w & h & E) | [(fr & lm & w & h & E)
       | (fr & lm & w & h & E)]]]]]; rewrite E;
    (split; [| split]);
    first [ exists false, false; reflexivity | do 2 eexists; reflexivity ].
Qed.

Lemma count_logic_rep_state (k : nat) (c : RepCounter) (d u : bool) :
  rep_state k c -> exists k', rep_state k' (count_logic c d u).
Proof.
  intros [-> | ->]; unfold count_logic; simpl.
  - destruct d; [exists k; right; reflexivity |].
    exists k; left; destruct u; reflexivity.
  - destruct d; [exists k; right; reflexivity |].
    destruct u; [| exists k; right; reflexivity].
    exists (S k). left. f_equal. rewrite S_INR. lra.
Qed.

Lemma rep_state_int (k : nat) (c : RepCounter) :
  rep_state k c -> Py.int (count c) = Z.of_nat k.
Proof.
  intros [-> | ->]; cbn [count]; [apply int_INR |].
  pose proof (pos_INR k) as Hk.
  unfold Py.int. destruct (Rle_dec 0 (INR k + 0.5)) as [_ | Hn]; [| lra].
  apply Zfloor_eq. rewrite <- INR_IZR_INZ. lra.
Qed.

Lemma reset_counter_reps (self : Counters) (exercise : option string) :
  (jumping_jacks (reset_counter self exercise) = jumping_jacks self
   \/ jumping_jacks (reset_counter self exercise) = mkRep 0 0)
  /\ (push_ups (reset_counter self exercise) = push_ups self
      \/ push_ups (reset_counter self exercise) = mkRep 0 0)
  /\ (sit_ups (reset_counter self exercise) = sit_ups self
      \/ sit_ups (reset_counter self exercise) = mkRep 0 0).
Proof.
  unfold reset_counter.
  destruct (Py.str_eq exercise "jumping_jacks"); [simpl; tauto |].
  destruct (Py.str_eq exercise "push_ups"); [simpl; tauto |].
  destruct (Py.str_eq exercise "sit_ups"); [simpl; tauto |].
  destruct (Py.str_eq exercise "plank"); [simpl; tauto |].
  destruct (Py.str_eq exercise "vertical_jump"); simpl; tauto.
Qed.

Lemma reachable_reps (self : Counters) :
  reachable self ->
  (exists k, rep_state k (jumping_jacks self))
  /\ (exists k, rep_state k (push_ups self))
  /\ (exists k, rep_state k (sit_ups self)).
Proof.
  induction 1 as [| self frame exercise time _ (Hj & Hp & Hs)
                  | self exercise _ (Hj & Hp & Hs)].
  - repeat split; exists 0%nat; left; reflexivity.
  - destruct (process_frame_reps self frame exercise time)
      as ((d1 & u1 & E1) & (d2 & u2 & E2) & (d3 & u3 & E3)).
    rewrite E1, E2, E3.
    destruct Hj as [k1 Hj], Hp as [k2 Hp], Hs as [k3 Hs].
    repeat split; eapply count_logic_rep_state; eassumption.
  - destruct (reset_counter_reps self exercise) as (R1 & R2 & R3).
    assert (Hz : rep_state 0 (mkRep 0 0)) by (left; reflexivity).
    repeat split.
    + destruct R1 as [-> | ->]; [exact Hj | exists 0%nat; exact Hz].
    + destruct R2 as [-> | ->]; [exact Hp | exists 0%nat; exact Hz].
    + destruct R3 as [-> | ->]; [exact Hs | exists 0%nat; exact Hz].
Qed.

(** X9: in every state the engine can reach, each of the three repetition
    counters is, for some whole number k of full repetitions, either in
    the closed phase with [count] k or in the open phase with [count]
    k + 0.5; the integer the records report is k in both cases. *)
Theorem reachable_rep_counters (self : Counters) (c : RepCounter) :
  reachable self ->
  In c [jumping_jacks self; push_ups self; sit_ups self] ->
  exists k : nat, rep_state k c /\ Py.int (count c) = Z.of_nat k.
Proof.
  intros Hreach Hin.
  destruct (reachable_reps self Hreach) as ((k1 & H1) & (k2 & H2) & (k3 & H3)).
  destruct Hin as [<- | [<- | [<- | []]]];
    [exists k1 | exists k2 | exists k3]; (split; [assumption | now apply rep_state_int]).
Qed.

Lemma reachable_rep_counters_witness :
  exists k : nat,
    rep_state k (jumping_jacks
                   (fst (process_frame init Examples.open_frame "jumping_jacks"
                                       (mkClock 1 1))))
    /\ Py.int (count (jumping_jacks
                        (fst (process_frame init Examples.open_frame
                                            "jumping_jacks" (mkClock 1 1)))))
       = Z.of_nat k.
Proof.
  apply (reachable_rep_counters
           (fst (process_frame init Examples.open_frame "jumping_jacks"
                               (mkClock 1 1)))).
  - apply reach_frame. apply reach_init.
  - left. reflexivity.
Defined.

(** What one vertical-jump step can do. *)
Lemma vj_step_invariant (self : Counters) (fr : Frame) (lm : Landmarks)
    (w h : Z) :
  let c := vertical_jump self in
  let c' := vertical_jump (fst (process_vertical_jump self fr lm w h)) in
  (max_height c = 0 \/ 20 < max_height c) ->
  (max_height c' = 0 \/ 20 < max_height c')
  /\ (jumps c <= jumps c')%Z
  /\ baseline c' <> None.
Proof.
  cbv zeta. intros Hm. unfold process_vertical_jump.
  cbn [fst vertical_jump set_vertical_jump].
  set (jh := _ - _).
  destruct (Py.ltb 20 jh) eqn:E1.
  - apply ltb_iff_lt in E1.
    destruct (Py.ltb (max_height (vertical_jump self)) jh); cbn [max_height jumps baseline];
      repeat split; try lia; try discriminate; tauto.
  - destruct (Py.ltb jh 10 && Py.ltb 20 (max_height (vertical_jump self)));
      cbn [max_height jumps baseline];
      repeat split; try lia; try discriminate; tauto.
Qed.

Lemma reset_counter_jump (self : Counters) (exercise : option string) :
  vertical_jump (reset_counter self exercise) = vertical_jump self
  \/ vertical_jump (reset_counter self exercise) = mkJump None 0 0.
Proof.
  unfold reset_counter.
  destruct (Py.str_eq exercise "jumping_jacks"); [simpl; tauto |].
  destruct (Py.str_eq exercise "push_ups"); [simpl; tauto |].
  destruct (Py.str_eq exercise "sit_ups"); [simpl; tauto |].
  destruct (Py.str_eq exercise "plank"); [simpl; tauto |].
  destruct (Py.str_eq exercise "vertical_jump"); simpl; tauto.
Qed.

(** X10: in every state the engine can reach, the recorded peak of the
    vertical jump is 0 or above 20 (never a height from 0 to 20), the
    jump count is not negative, and as long as no baseline is set the
    peak and the jump count are 0. *)
Theorem reachable_vertical_jump (self : Counters) :
  reachable self ->
  let c := vertical_jump self in
  (max_height c = 0 \/ 20 < max_height c)
  /\ (0 <= jumps c)%Z
  /\ (baseline c = None -> max_height c = 0 /\ jumps c = 0%Z).
Proof.
  cbv zeta.
  induction 1 as [| self frame exercise time _ (Hm & Hj & Hb)
                  | self exercise _ (Hm & Hj & Hb)].
  - simpl. split; [tauto | split; [lia | tauto]].
  - destruct (process_frame_cases self frame exercise time)
      as [E | [(fr & lm & w & h & E) | [(fr & lm & w & h & E)
         | [(fr & lm & w & h & E) | [(fr & lm & w & h & E)
         | (fr & lm & w & h & E)]]]]]; rewrite E;
      try (split; [| split]; assumption).
    destruct (vj_step_invariant self fr lm w h Hm) as (Hm' & Hj' & Hb').
    split; [exact Hm' | split; [lia | intros Hn; contradiction]].
  - destruct (reset_counter_jump self exercise) as [-> | ->].
    + split; [| split]; assumption.
    + simpl. split; [tauto | split; [lia | tauto]].
Qed.

Lemma reachable_vertical_jump_witness :
  let c := vertical_jump
             (fst (process_frame init Examples.open_frame "vertical_jump"
                                 (mkClock 1 1))) in
  (max_height c = 0 \/ 20 < max_height c)
  /\ (0 <= jumps c)%Z
  /\ (baseline c = None -> max_height c = 0 /\ jumps c = 0%Z).
Proof.
  apply (reachable_vertical_jump
           (fst (process_frame init Examples.open_frame "vertical_jump"
                               (mkClock 1 1)))).
  apply reach_frame. apply reach_init.
Defined.

End Invariants.

(** ** Thresholds, resets and frame sequences *)

Section Sequences.

Import PoseProcessor Kinds Trace Reps Reach Stream.



(** X12: [reset_counter] is idempotent, resets of two names commute, and
    resetting the five kinds one after the other gives the counters of
    [__init__] from any state. *)
Theorem reset_counter_algebra (self : Counters) (e1 e2 : option string) :
  reset_counter (reset_counter self e1) e1 = reset_counter self e1
  /\ reset_counter (reset_counter self e1) e2 =
     reset_counter (reset_counter self e2) e1
  /\ fold_left (fun s name => reset_counter s (Some name)) known_kinds self = init.
Proof.
  split; [| split].
  - unfold reset_counter.
    destruct (Py.str_eq e1 "jumping_jacks"); [reflexivity |].
    destruct (Py.str_eq e1 "push_ups"); [reflexivity |].
    destruct (Py.str_eq e1 "sit_ups"); [reflexivity |].
    destruct (Py.str_eq e1 "plank"); [reflexivity |].
    destruct (Py.str_eq e1 "vertical_jump"); reflexivity.
  - unfold reset_counter.
    destruct (Py.str_eq e1 "jumping_jacks"), (Py.str_eq e1 "push_ups"),
      (Py.str_eq e1 "sit_ups"), (Py.str_eq e1 "plank"),
      (Py.str_eq e1 "vertical_jump"),
      (Py.str_eq e2 "jumping_jacks"), (Py.str_eq e2 "push_ups"),
      (Py.str_eq e2 "sit_ups"), (Py.str_eq e2 "plank"),
      (Py.str_eq e2 "vertical_jump"); reflexivity.
  - reflexivity.
Qed.

(** X13: frames in which nothing is detected can be dropped from any
    sequence of frames processed for one exercise name without changing
    the counters at the end. *)
Theorem dropouts_are_invisible (exercise : string) (self : Counters)
    (l : list (Frame * Clock)) :
  fst (run (frame_step exercise) self l) =
  fst (run (frame_step exercise) self (filter detected l)).
Proof.
  revert self. induction l as [| i l IH]; intros self; [reflexivity |].
  cbn [filter]. destruct (detected i) eqn:Hd.
  - cbn [run fst]. apply IH.
  - cbn [run fst].
    assert (Hn : fst (frame_step exercise self i) = self).
    { unfold frame_step, process_frame. unfold detected in Hd.
      destruct (pose_landmarks (fst i)); [discriminate | reflexivity]. }
    rewrite Hn. apply IH.
Qed.

Lemma count_logic_half (c : RepCounter) (d u : bool) :
  count (count_logic c d u) <= count c + 0.5.
Proof.
  unfold count_logic.
  destruct d, u, (direction c =? 0)%Z, (direction c =? 1)%Z; simpl; lra.
Qed.

(** X14: a repetition takes at least two frames: over any sequence of n
    frames processed for one exercise name, each of the three [count]s
    grows by at most n / 2. *)
Theorem rep_counts_bounded_by_frames (exercise : string) (self : Counters)
    (l : list (Frame * Clock)) :
  let self' := fst (run (frame_step exercise) self l) in
  count (jumping_jacks self') <= count (jumping_jacks self) + INR (List.length l) / 2
  /\ count (push_ups self') <= count (push_ups self) + INR (List.length l) / 2
  /\ count (sit_ups self') <= count (sit_ups self) + INR (List.length l) / 2.
Proof.
  cbv zeta. revert self. induction l as [| i l IH]; intros self.
  - simpl. lra.
  - cbn [run fst]. change (List.length (i :: l)) with (S (List.length l)).
    rewrite S_INR.
    destruct (IH (fst (frame_step exercise self i))) as (H1 & H2 & H3).
    destruct (process_frame_reps self (fst i) exercise (snd i))
      as ((d1 & u1 & E1) & (d2 & u2 & E2) & (d3 & u3 & E3)).
    fold (frame_step exercise self i) in E1, E2, E3.
    pose proof (count_logic_half (jumping_jacks self) d1 u1) as B1.
    pose proof (count_logic_half (push_ups self) d2 u2) as B2.
    pose proof (count_logic_half (sit_ups self) d3 u3) as B3.
    rewrite <- E1 in B1. rewrite <- E2 in B2. rewrite <- E3 in B3.
    lra.
Qed.

(** The potential of the vertical-jump counter: twice the jumps, plus one
    when a peak above 20 is on record. *)
Lemma vj_step_potential (self : Counters) (fr : Frame) (lm : Landmarks)
    (w h : Z) :
  let c := vertical_jump self in
  let c' := vertical_jump (fst (process_vertical_jump self fr lm w h)) in
  (2 * jumps c' + (if Py.ltb 20 (max_height c') then 1 else 0)
   <= 2 * jumps c + (if Py.ltb 20 (max_height c) then 1 else 0) + 1)%Z.
Proof.
  cbv zeta. unfold process_vertical_jump.
  cbn [fst vertical_jump set_vertical_jump].
  set (jh := _ - _). set (c := vertical_jump self).
  destruct (Py.ltb 20 jh) eqn:E1.
  - destruct (Py.ltb (max_height c) jh); cbn [max_height jumps];
      destruct (Py.ltb 20 (max_height c)); rewrite ?E1; lia.
  - destruct (Py.ltb jh 10); cbn [andb].
    + destruct (Py.ltb 20 (max_height c)) eqn:E2; cbn [max_height jumps].
      * rewrite (ltb_false 20 0) by lra. lia.
      * rewrite E2. lia.
    + cbn [max_height jumps]. destruct (Py.ltb 20 (max_height c)); lia.
Qed.

(** X15: a jump takes at least two frames: over any sequence of n frames
    processed for one exercise name, twice the growth of [jumps] is at
    most n, plus one when a peak above 20 was on record at the start. *)
Theorem jumps_bounded_by_frames (exercise : string) (self : Counters)
    (l : list (Frame * Clock)) :
  let c := vertical_jump self in
  let c' := vertical_jump (fst (run (frame_step exercise) self l)) in
  (2 * jumps c' <= 2 * jumps c + (if Py.ltb 20 (max_height c) then 1 else 0)
                   + Z.of_nat (List.length l))%Z.
Proof.
  cbv zeta.
  assert (H : forall l self,
             (2 * jumps (vertical_jump (fst (run (frame_step exercise) self l)))
              + (if Py.ltb 20 (max_height
                     (vertical_jump (fst (run (frame_step exercise) self l))))
                 then 1 else 0)
              <= 2 * jumps (vertical_jump self)
                 + (if Py.ltb 20 (max_height (vertical_jump self)) then 1 else 0)
                 + Z.of_nat (List.length l))%Z).
  { clear. induction l as [| i l IH]; intros self; [simpl; lia |].
    cbn [run fst]. change (List.length (i :: l)) with (S (List.length l)).
    specialize (IH (fst (frame_step exercise self i))).
    assert (Hs : (2 * jumps (vertical_jump (fst (frame_step exercise self i)))
                  + (if Py.ltb 20 (max_height
                         (vertical_jump (fst (frame_step exercise self i))))
                     then 1 else 0)
                  <= 2 * jumps (vertical_jump self)
                     + (if Py.ltb 20 (max_height (vertical_jump self)) then 1 else 0)
                     + 1)%Z).
    { unfold frame_step.
      destruct (process_frame_cases self (fst i) exercise (snd i))
        as [E | [(fr & lm & w & h & E) | [(fr & lm & w & h & E)
           | [(fr & lm & w & h & E) | [(fr & lm & w & h & E)
           | (fr & lm & w & h & E)]]]]]; rewrite E;
        try (cbn [fst process_jumping_jacks process_push_ups process_sit_ups
                  process_plank vertical_jump set_jumping_jacks set_push_ups
                  set_sit_ups set_plank]; lia).
      apply vj_step_potential. }
    lia. }
  specialize (H l self).
  destruct (Py.ltb 20 (max_height
              (vertical_jump (fst (run (frame_step exercise) self l))))); lia.
Qed.

End Sequences.

(** ** Plank timer and vertical jump over whole sequences *)

Section Timers.

Import PoseProcessor Trace Stream Examples Cases.

(** What the plank counter needs for the clock to make sense: a hold in
    progress started no later than the latest reading [lo], and
    [elapsed] is not negative. *)
Lemma plank_step_ordered (self : Counters) (i : Timed) (lo : R) :
  (forall s, start_time (plank self) = Some s -> s <= lo) ->
  0 <= elapsed (plank self) ->
  lo <= t1 (snd i) -> t1 (snd i) <= t2 (snd i) ->
  let c' := plank (fst (plank_step self i)) in
  (forall s, start_time c' = Some s -> s <= t2 (snd i))
  /\ 0 <= elapsed c'
  /\ total (plank self) <= total c'.
Proof.
  intros Hs He H1 H2. cbv zeta. rewrite plank_step_counter.
  destruct (in_plank i); destruct (start_time (plank self)) as [s |] eqn:Es;
    cbn [start_time elapsed total].
  - specialize (Hs s eq_refl).
    repeat split; try lra. intros s' [= <-]. lra.
  - repeat split; try lra. intros s' [= <-]. lra.
  - repeat split; try lra. intros s' [=].
  - rewrite Es. repeat split; try lra. intros s' [=].
Qed.

(** X16: with a clock that never runs backwards, from a state with no hold
    in progress and [elapsed] 0, [total] never decreases over a plank
    sequence and [elapsed] is never negative. *)
Theorem plank_total_monotone (l : list Timed) (self : Counters) (lo : R) :
  start_time (plank self) = None -> elapsed (plank self) = 0 ->
  clock_ordered lo l ->
  let c' := plank (fst (run plank_step self l)) in
  total (plank self) <= total c' /\ 0 <= elapsed c'.
Proof.
  intros Hs He Hclock. cbv zeta.
  assert (H : forall l self lo,
             (forall s, start_time (plank self) = Some s -> s <= lo) ->
             0 <= elapsed (plank self) -> clock_ordered lo l ->
             total (plank self) <= total (plank (fst (run plank_step self l)))
             /\ 0 <= elapsed (plank (fst (run plank_step self l)))).
  { clear. induction l as [| i l IH]; intros self lo Hs He Hclock.
    - simpl. lra.
    - simpl in Hclock. destruct Hclock as (H1 & H2 & Hrest).
      destruct (plank_step_ordered self i lo Hs He H1 H2) as (Hs' & He' & Ht).
      cbn [run fst].
      destruct (IH (fst (plank_step self i)) (t2 (snd i)) Hs' He' Hrest).
      lra. }
  apply (H l self lo); [rewrite Hs; discriminate | lra | exact Hclock].
Qed.

Lemma plank_total_monotone_witness :
  let l := [slack_at 5] ++ flat_map interval_inputs two_holds in
  let c' := plank (fst (run plank_step init l)) in
  total (plank init) <= total c' /\ 0 <= elapsed c'.
Proof.
  apply (plank_total_monotone _ init 0); [reflexivity | reflexivity |].
  simpl. repeat split; lra.
Defined.

(** A baseline once set stays. *)
Lemma vj_baseline_kept (b : R) (l : list Sample) (self : Counters) :
  baseline (vertical_jump self) = Some b ->
  baseline (vertical_jump (fst (run vertical_jump_step self l))) = Some b.
Proof.
  revert self. induction l as [| s l IH]; intros self Hb; [exact Hb |].
  cbn [run fst]. apply IH.
  destruct (vertical_jump self) as [bs m n] eqn:E. cbn [baseline] in Hb. subst bs.
  rewrite (vj_step_counter self s b m n E). cbv zeta.
  destruct (Py.ltb 20 _); [destruct (Py.ltb m _); reflexivity |].
  destruct (_ && _); reflexivity.
Qed.

(** X17: the baseline of the vertical jump is the hip position of the
    first frame processed after [__init__] or a reset, whatever frames
    follow: it is never recalibrated. *)
Theorem vertical_jump_baseline_is_first_frame
    (first : Sample) (l : list Sample) (self : Counters) :
  baseline (vertical_jump self) = None ->
  baseline (vertical_jump (fst (run vertical_jump_step self (first :: l)))) =
  Some (hip_y first).
Proof.
  intros Hnone. cbn [run fst]. apply vj_baseline_kept.
  unfold vertical_jump_step, process_vertical_jump.
  cbn [fst vertical_jump set_vertical_jump]. rewrite Hnone.
  fold (hip_y first).
  destruct (Py.ltb 20 _); [destruct (Py.ltb _ _); reflexivity |].
  destruct (_ && _); reflexivity.
Qed.

Lemma vertical_jump_baseline_is_first_frame_witness :
  baseline (vertical_jump
              (fst (run vertical_jump_step init (jump_samples hop)))) =
  Some (hip_y (stand hop)).
Proof.
  apply (vertical_jump_baseline_is_first_frame (stand hop) _ init). reflexivity.
Defined.

(** X18: movement of at most 20 pixels above the hip position of the
    first frame is never counted and never recorded as a peak: from the
    counters of [__init__] the counter ends with 0 jumps and peak 0. *)
Theorem vertical_jump_ignores_small_moves (first : Sample) (l : list Sample) :
  Forall (fun s => height_above (hip_y first) s <= 20) l ->
  vertical_jump (fst (run vertical_jump_step init (first :: l))) =
  mkJump (Some (hip_y first)) 0 0.
Proof.
  intros Hsmall. cbn [run fst].
  apply vj_landed_stay.
  - apply vj_step_first. reflexivity.
  - apply Forall_map. exact Hsmall.
Qed.

Lemma vertical_jump_ignores_small_moves_witness :
  vertical_jump (fst (run vertical_jump_step init
                          [hips_at (1 / 2); hips_at (11 / 24); hips_at (1 / 2)])) =
  mkJump (Some (hip_y (hips_at (1 / 2)))) 0 0.
Proof.
  apply (vertical_jump_ignores_small_moves (hips_at (1 / 2))
           [hips_at (11 / 24); hips_at (1 / 2)]).
  repeat constructor; unfold height_above, hip_y, hips_at;
    cbn [s_landmarks s_h y]; lra.
Defined.

(** Adding a number to the jump count before a sequence adds it after. *)
Lemma vj_run_shift (d : Z) (l : list Sample) (self1 self2 : Counters)
    (bs : option R) (m : R) (n : Z) :
  vertical_jump self1 = mkJump bs m n ->
  vertical_jump self2 = mkJump bs m (n + d) ->
  let c1 := vertical_jump (fst (run vertical_jump_step self1 l)) in
  let c2 := vertical_jump (fst (run vertical_jump_step self2 l)) in
  c2 = mkJump (baseline c1) (max_height c1) (jumps c1 + d).
Proof.
  cbv zeta. revert self1 self2 bs m n.
  induction l as [| s l IH]; intros self1 self2 bs m n H1 H2.
  - simpl. rewrite H1, H2. reflexivity.
  - cbn [run fst].
    assert (Hstep : exists bs' m' n',
               vertical_jump (fst (vertical_jump_step self1 s)) = mkJump bs' m' n'
               /\ vertical_jump (fst (vertical_jump_step self2 s)) =
                  mkJump bs' m' (n' + d)).
    { unfold vertical_jump_step, process_vertical_jump.
      cbn [fst vertical_jump set_vertical_jump]. rewrite H1, H2.
      cbn [baseline max_height jumps].
      destruct (Py.ltb 20 _); [destruct (Py.ltb m _); do 3 eexists; split; reflexivity |].
      destruct (_ && _); do 3 eexists; split; try reflexivity.
      f_equal. lia. }
    destruct Hstep as (bs' & m' & n' & E1 & E2).
    apply (IH _ _ bs' m' n' E1 E2).
Qed.

(** One hop from a standing state with no jump on record. *)
Lemma vj_hop_from_zero (b : R) (h : Hop) (self : Counters) :
  vertical_jump self = mkJump (Some b) 0 0 -> is_hop b h ->
  vertical_jump (fst (run vertical_jump_step self (hop_samples h))) =
  mkJump (Some b) 0 1.
Proof.
  intros H0 (Htop & Hrise & Hpeak & Hfall & Hland).
  unfold hop_samples. rewrite run_app. cbn [fst].
  destruct (vj_rising b (hop_top h) (hop_rising h) self 0 0 H0
                      (Rle_refl 0) (or_introl eq_refl) Hrise)
    as (m & Hm & Hmtop & Hm0).
  set (s1 := fst (run vertical_jump_step self (hop_rising h))) in *.
  cbn [run fst].
  assert (Hp : vertical_jump (fst (vertical_jump_step s1 (hop_peak h))) =
               mkJump (Some b) (hop_top h) 0).
  { rewrite (vj_step_counter s1 (hop_peak h) b m 0 Hm). cbv zeta.
    unfold height_above. rewrite Hpeak.
    replace (b - (b - hop_top h)) with (hop_top h) by ring.
    rewrite (ltb_true 20 (hop_top h) Htop).
    destruct (Rlt_dec m (hop_top h)) as [Hlt | Hge].
    - rewrite (ltb_true m (hop_top h) Hlt). reflexivity.
    - rewrite (ltb_false m (hop_top h)) by lra. f_equal. lra. }
  apply (vj_falling b (hop_top h) (hop_landing h) (hop_falling h) _ (hop_top h)
                    Htop Hland Hp (Rle_refl _) Hfall).
Qed.

Lemma vj_hops (b : R) (hops : list Hop) (self : Counters) (n : Z) :
  vertical_jump self = mkJump (Some b) 0 n ->
  Forall (is_hop b) hops ->
  vertical_jump (fst (run vertical_jump_step self (flat_map hop_samples hops))) =
  mkJump (Some b) 0 (n + Z.of_nat (List.length hops)).
Proof.
  revert self n. induction hops as [| h hops IH]; intros self n H0 Hall.
  - simpl. rewrite H0. f_equal. lia.
  - inversion Hall as [| ? ? Hh Hrest]; subst.
    cbn [flat_map]. rewrite run_app. cbn [fst].
    assert (H1 : vertical_jump (fst (run vertical_jump_step self (hop_samples h)))
                 = mkJump (Some b) 0 (n + 1)).
    { pose (self0 := set_vertical_jump self (mkJump (Some b) 0 0)).
      assert (E0 : vertical_jump self0 = mkJump (Some b) 0 0) by reflexivity.
      assert (En : vertical_jump self = mkJump (Some b) 0 (0 + n))
        by (rewrite H0; reflexivity).
      pose proof (vj_run_shift n (hop_samples h) self0 self (Some b) 0 0 E0 En)
        as Hshift.
      cbv zeta in Hshift.
      rewrite (vj_hop_from_zero b h self0 E0 Hh) in Hshift.
      rewrite Hshift. cbn [baseline max_height jumps]. f_equal. lia. }
    rewrite (IH _ (n + 1)%Z H1 Hrest). f_equal.
    change (List.length (h :: hops)) with (S (List.length hops)). lia.
Qed.

(** X19: from the counters of [__init__], a first frame standing followed
    by N hops counts N jumps.  A hop rises without coming down to a top
    more than 20 pixels above the first frame's hip position and returns
    to that position without going up; the tops may differ from hop to
    hop. *)
Theorem vertical_jump_counts_hops (first : Sample) (hops : list Hop) :
  Forall (is_hop (hip_y first)) hops ->
  vertical_jump
    (fst (run vertical_jump_step init (first :: flat_map hop_samples hops))) =
  mkJump (Some (hip_y first)) 0 (Z.of_nat (List.length hops)).
Proof.
  intros Hhops. cbn [run fst].
  rewrite (vj_hops (hip_y first) hops _ 0); [reflexivity | | exact Hhops].
  apply vj_step_first. reflexivity.
Qed.

Lemma vertical_jump_counts_hops_witness :
  vertical_jump
    (fst (run vertical_jump_step init
              (hips_at (1 / 2) :: flat_map hop_samples two_hops))) =
  mkJump (Some (hip_y (hips_at (1 / 2)))) 0 2.
Proof.
  apply (vertical_jump_counts_hops (hips_at (1 / 2)) two_hops).
  unfold two_hops.
  repeat constructor; unfold height_above, hip_y, hips_at;
    cbn [hop_top hop_rising hop_peak hop_falling hop_landing map climbs descends
         s_landmarks s_h y]; try lra; repeat split; lra.
Defined.

End Timers.

(** ** The streaming loop and the metrics route *)

Section Streaming.

Import PoseProcessor Kinds Reach Stream App Examples.

Lemma process_frame_agree (k : Kind) (self : Counters) (frame : Frame)
    (time : Clock) :
  agree_except k self (fst (process_frame self frame (kind_name k) time)).
Proof.
  unfold agree_except, process_frame.
  destruct (pose_landmarks frame) as [lm |];
    [| repeat split; intros; reflexivity].
  destruct (shape frame) as [h w].
  destruct k; cbn -[calculate_angle count_logic];
    repeat split; intros Hk; try reflexivity; contradiction Hk; reflexivity.
Qed.

Lemma agree_except_trans (k : Kind) (a b c : Counters) :
  agree_except k a b -> agree_except k b c -> agree_except k a c.
Proof.
  intros (A1 & A2 & A3 & A4 & A5) (B1 & B2 & B3 & B4 & B5).
  repeat split; intros Hk;
    [rewrite B1, A1 | rewrite B2, A2 | rewrite B3, A3 | rewrite B4, A4
     | rewrite B5, A5]; auto.
Qed.

Lemma agree_except_refl (k : Kind) (a : Counters) : agree_except k a a.
Proof. repeat split; intros; reflexivity. Qed.

Lemma kind_name_truthy (k : Kind) : Py.truthy (Some (kind_name k)) = true.
Proof. destruct k; reflexivity. Qed.

Lemma step_selected (g : Globals) (k : Kind) (frame : Frame) (now : string)
    (time : Clock) :
  current_exercise g = Some (kind_name k) ->
  let g' := fst (generate_frames_step g frame now time) in
  current_exercise g' = Some (kind_name k)
  /\ agree_except k (pose_processor g) (pose_processor g')
  /\ (forall key, key <> kind_name k ->
        session_exercises g' key = session_exercises g key).
Proof.
  intros Hsel. cbv zeta. unfold generate_frames_step.
  rewrite Hsel, kind_name_truthy.
  pose proof (process_frame_agree k (pose_processor g) frame time) as Hagree.
  destruct (process_frame (pose_processor g) frame (kind_name k) time)
    as [self [fr m]].
  cbn [fst current_exercise pose_processor session_exercises] in *.
  split; [reflexivity |]. split; [exact Hagree |].
  intros key Hkey. unfold dict_set.
  apply String.eqb_neq in Hkey. rewrite Hkey. reflexivity.
Qed.

(** X20: while one of the five kinds is selected, streaming any sequence
    of camera reads keeps the selection, changes no counter of the other
    four kinds and no stored record of another name, and yields at most
    one frame per read. *)
Theorem stream_touches_selected_only (camera : list Read) (g : Globals)
    (k : Kind) :
  current_exercise g = Some (kind_name k) ->
  let out := generate_frames g camera in
  current_exercise (fst out) = Some (kind_name k)
  /\ agree_except k (pose_processor g) (pose_processor (fst out))
  /\ (forall key, key <> kind_name k ->
        session_exercises (fst out) key = session_exercises g key)
  /\ (List.length (snd out) <= List.length camera)%nat.
Proof.
  cbv zeta. revert g. induction camera as [| r camera IH]; intros g Hsel.
  - simpl. repeat split; [exact Hsel | intros; reflexivity .. | lia].
  - cbn [generate_frames]. destruct (success r).
    + destruct (step_selected g k (image r) (stamp r) (clock r) Hsel)
        as (S1 & S2 & S3).
      destruct (IH _ S1) as (I1 & I2 & I3 & I4).
      cbn [fst snd]. split; [exact I1 |].
      split; [eapply agree_except_trans; eassumption |].
      split; [intros key Hkey; rewrite (I3 key Hkey); apply (S3 key Hkey) |].
      simpl. lia.
    + simpl. repeat split; [exact Hsel | intros; reflexivity .. | lia].
Qed.

(** X21: the loop ends at the first failed camera read: reads after it are
    neither processed nor yielded. *)
Theorem stream_stops_at_failed_read (before after : list Read) (r : Read)
    (g : Globals) :
  success r = false ->
  generate_frames g (before ++ r :: after) = generate_frames g before.
Proof.
  intros Hfail. revert g. induction before as [| b before IH]; intros g.
  - simpl. rewrite Hfail. reflexivity.
  - cbn [app generate_frames]. destruct (success b); [| reflexivity].
    rewrite IH. reflexivity.
Qed.

Lemma truthy_nonempty (e : string) :
  e <> EmptyString -> Py.truthy (Some e) = true.
Proof. destruct e; [intros H; contradiction H; reflexivity | reflexivity]. Qed.

(** X22: right after a frame is processed for the selected exercise (any
    non-empty name), [get_metrics] answers with that name and exactly
    the record [process_frame] produced for that frame when the record
    can be serialised, and raises [TypeError] when it cannot. *)
Theorem get_metrics_after_frame (g : Globals) (e : string) (frame : Frame)
    (now later : string) (time : Clock) :
  current_exercise g = Some e -> e <> EmptyString ->
  let record := snd (snd (process_frame (pose_processor g) frame e time)) in
  get_metrics (fst (generate_frames_step g frame now time)) later =
  if serialisable record
  then Answer (mkMetricsResp (Some e) record (Some later))
  else TypeError.
Proof.
  intros Hsel Hne. cbv zeta. unfold generate_frames_step, get_metrics.
  rewrite Hsel, (truthy_nonempty e Hne).
  destruct (process_frame (pose_processor g) frame e time) as [self [fr m]].
  cbn [fst snd current_exercise session_exercises].
  rewrite (truthy_nonempty e Hne).
  unfold dict_set. rewrite String.eqb_refl. reflexivity.
Qed.

Lemma record_serialisable (k : Kind) (self : Counters) (frame : Frame)
    (time : Clock) :
  serialisable (snd (snd (process_frame self frame (kind_name k) time))) =
  match k, pose_landmarks frame with
  | Plank, Some _ => false
  | _, _ => true
  end.
Proof.
  unfold process_frame.
  destruct (pose_landmarks frame) as [lm |]; [| destruct k; reflexivity].
  destruct (shape frame) as [h w].
  destruct k; reflexivity.
Qed.

(** X27: with one of the five kinds selected, right after a frame is
    processed [get_metrics] raises [TypeError] exactly when the kind is
    the plank and the pose model detected something in the frame (the
    record then holds the [numpy.bool_] [in_position]); in every other
    case it answers with the kind and the record of that frame. *)
Theorem get_metrics_fails_on_plank_records (g : Globals) (k : Kind)
    (frame : Frame) (now later : string) (time : Clock) :
  current_exercise g = Some (kind_name k) ->
  let record :=
    snd (snd (process_frame (pose_processor g) frame (kind_name k) time)) in
  get_metrics (fst (generate_frames_step g frame now time)) later =
  match k, pose_landmarks frame with
  | Plank, Some _ => TypeError
  | _, _ => Answer (mkMetricsResp (Some (kind_name k)) record (Some later))
  end.
Proof.
  intros Hsel. cbv zeta. unfold generate_frames_step, get_metrics.
  rewrite Hsel, kind_name_truthy.
  pose proof (record_serialisable k (pose_processor g) frame time) as Hser.
  destruct (process_frame (pose_processor g) frame (kind_name k) time)
    as [self [fr m]].
  cbn [fst snd current_exercise session_exercises] in *.
  rewrite kind_name_truthy.
  unfold dict_set. rewrite String.eqb_refl.
  unfold jsonify. cbn [resp_metrics metrics]. rewrite Hser.
  destruct k, (pose_landmarks frame); reflexivity.
Qed.

(** X23: a selection with a missing or empty name is answered with
    success and switches the engine off: no counter changes, streamed
    frames pass through unprocessed, [get_metrics] answers with no
    exercise and an empty record, and a reset does nothing. *)
Theorem falsy_selection_switches_off (g : Globals) (requested : option string) :
  Py.truthy requested = false ->
  let g' := fst (set_exercise g requested) in
  snd (set_exercise g requested) = mkSetResp "success" requested
  /\ pose_processor g' = pose_processor g
  /\ (forall frame now time, generate_frames_step g' frame now time = (g', frame))
  /\ (forall now, get_metrics g' now = Answer (mkMetricsResp None [] None))
  /\ reset_exercise g' = (g', "success"%string).
Proof.
  intros Hfalsy. cbv zeta.
  assert (Hreq : requested = None \/ requested = Some EmptyString).
  { destruct requested as [[| a s] |]; [right | discriminate | left]; reflexivity. }
  destruct Hreq as [-> | ->]; repeat split.
Qed.

End Streaming.

(** ** From selection to the metrics route *)

Section EndToEnd.

Import PoseProcessor Kinds Trace Reach Stream App Examples Cameras.

Lemma stream_touches_selected_only_witness :
  let out := generate_frames jacks_selected broken_camera in
  current_exercise (fst out) = Some (kind_name JumpingJacks)
  /\ agree_except JumpingJacks (pose_processor jacks_selected)
                  (pose_processor (fst out))
  /\ (forall key, key <> kind_name JumpingJacks ->
        session_exercises (fst out) key = session_exercises jacks_selected key)
  /\ (List.length (snd out) <= List.length broken_camera)%nat.
Proof.
  apply (stream_touches_selected_only broken_camera jacks_selected JumpingJacks).
  reflexivity.
Defined.

Lemma stream_stops_at_failed_read_witness :
  generate_frames start
    ([read_of "t1" (mkClock 1 1) open_sample] ++ failed_read
       :: [read_of "t4" (mkClock 4 4) open_sample]) =
  generate_frames start [read_of "t1" (mkClock 1 1) open_sample].
Proof.
  apply (stream_stops_at_failed_read
           [read_of "t1" (mkClock 1 1) open_sample]
           [read_of "t4" (mkClock 4 4) open_sample] failed_read start).
  reflexivity.
Defined.

Lemma get_metrics_after_frame_witness :
  let record := snd (snd (process_frame (pose_processor one_jack) open_frame
                                        "jumping_jacks" (mkClock 3 3))) in
  get_metrics (fst (generate_frames_step one_jack open_frame "t3" (mkClock 3 3)))
              "t4" =
  if serialisable record
  then Answer (mkMetricsResp (Some "jumping_jacks"%string) record
                             (Some "t4"%string))
  else TypeError.
Proof.
  apply (get_metrics_after_frame one_jack "jumping_jacks" open_frame "t3" "t4"
                                 (mkClock 3 3)).
  - reflexivity.
  - discriminate.
Defined.

(** A detected frame with the plank selected: the route fails. *)
Lemma get_metrics_fails_on_plank_records_witness :
  get_metrics
    (fst (generate_frames_step (fst (set_exercise start (Some "plank"%string)))
                               open_frame "t1" (mkClock 1 1)))
    "t2" = TypeError.
Proof.
  apply (get_metrics_fails_on_plank_records
           (fst (set_exercise start (Some "plank"%string))) Plank open_frame
           "t1" "t2" (mkClock 1 1)).
  reflexivity.
Defined.

Lemma falsy_selection_switches_off_witness :
  let g' := fst (set_exercise one_jack (Some EmptyString)) in
  snd (set_exercise one_jack (Some EmptyString)) =
    mkSetResp "success" (Some EmptyString)
  /\ pose_processor g' = pose_processor one_jack
  /\ (forall frame now time, generate_frames_step g' frame now time = (g', frame))
  /\ (forall now, get_metrics g' now = Answer (mkMetricsResp None [] None))
  /\ reset_exercise g' = (g', "success"%string).
Proof.
  apply (falsy_selection_switches_off one_jack (Some EmptyString)). reflexivity.
Defined.

(** Streaming good reads with jumping jacks selected is running the
    jumping-jacks step over the samples; the stored record is the last
    one. *)
Lemma stream_jumping_jacks (now : string) (time : Clock) (l : list Sample)
    (g : Globals) :
  current_exercise g = Some "jumping_jacks"%string ->
  let g' := fst (generate_frames g (map (read_of now time) l)) in
  pose_processor g' = fst (run jumping_jacks_step (pose_processor g) l)
  /\ current_exercise g' = Some "jumping_jacks"%string
  /\ (l <> [] ->
      session_exercises g' "jumping_jacks" =
      Some (mkEntry (last (snd (run jumping_jacks_step (pose_processor g) l)) [])
                    now)).
Proof.
  cbv zeta. revert g. induction l as [| s l IH]; intros g Hsel.
  - simpl. split; [reflexivity |]. split; [exact Hsel |].
    intros H; contradiction H; reflexivity.
  - cbn [map generate_frames read_of success image stamp clock fst snd].
    set (g1 := fst (generate_frames_step g (seen s) now time)).
    assert (H1 : pose_processor g1 = fst (jumping_jacks_step (pose_processor g) s)
                 /\ current_exercise g1 = Some "jumping_jacks"%string
                 /\ session_exercises g1 "jumping_jacks" =
                    Some (mkEntry (snd (snd (jumping_jacks_step (pose_processor g) s)))
                                  now)).
    { unfold g1, generate_frames_step. rewrite Hsel.
      cbn [Py.truthy]. repeat split. }
    destruct H1 as (P1 & C1 & S1).
    destruct (IH g1 C1) as (P2 & C2 & S2).
    cbn [run fst snd]. rewrite <- P1.
    split; [exact P2 |]. split; [exact C2 |].
    intros _. destruct l as [| s' l'].
    + simpl. exact S1.
    + rewrite S2 by discriminate.
      remember (s' :: l') as rest eqn:Hrest.
      assert (Hne : snd (run jumping_jacks_step (pose_processor g1) rest) <> []).
      { intros Hnil. apply (f_equal (@List.length _)) in Hnil.
        rewrite run_length, Hrest in Hnil. discriminate. }
      destruct (snd (run jumping_jacks_step (pose_processor g1) rest))
        as [| m ms] eqn:E; [contradiction |].
      reflexivity.
Qed.

(** X24: end to end.  Whatever was counted before, selecting jumping jacks
    and then streaming good reads that show idle frames followed by N
    full cycles leaves [count] at N, and [get_metrics] answers with
    jumping jacks and [count] N. *)
Theorem selected_jumping_jacks_report_cycles
    (g : Globals) (now later : string) (time : Clock)
    (idle : list Sample) (cycles : list Cycle) :
  forallb jj_closed idle = true ->
  Forall (fun c => is_cycle c = true) cycles ->
  let samples := idle ++ flat_map cycle_samples cycles in
  let selected := fst (set_exercise g (Some "jumping_jacks"%string)) in
  let g' := fst (generate_frames selected (map (read_of now time) samples)) in
  jumping_jacks (pose_processor g') = mkRep (INR (List.length cycles)) 0
  /\ (samples <> [] ->
      exists record,
        get_metrics g' later =
        Answer (mkMetricsResp (Some "jumping_jacks"%string) record (Some later))
        /\ metric record "count" = Some (MInt (Z.of_nat (List.length cycles)))).
Proof.
  intros Hidle Hcycles samples selected g'.
  assert (Hsel : current_exercise selected = Some "jumping_jacks"%string)
    by reflexivity.
  destruct (stream_jumping_jacks now time samples selected Hsel) as (P & C & S).
  fold g' in P, C, S.
  set (self := pose_processor selected) in *.
  assert (H0 : jumping_jacks self = mkRep 0 0) by reflexivity.
  assert (Hfinal : jumping_jacks (fst (run jumping_jacks_step self samples)) =
                   mkRep (INR (List.length cycles)) 0).
  { unfold samples. rewrite run_app. cbn [fst].
    assert (Hi : jumping_jacks (fst (run jumping_jacks_step self idle))
                 = jumping_jacks self)
      by (apply jj_closed_stay; [exact Hidle | rewrite H0; reflexivity]).
    rewrite jj_cycles; [| exact Hcycles | rewrite Hi, H0; reflexivity].
    rewrite Hi, H0. simpl. f_equal. lra. }
  split; [rewrite P; exact Hfinal |].
  intros Hne. specialize (S Hne).
  pose proof (run_last jumping_jacks_step
                (fun self m =>
                   serialisable m = true
                   /\ metric m "count" =
                      Some (MInt (Py.int (count (jumping_jacks self)))))
                (fun self s => conj eq_refl (jj_step_record self s))
                samples self Hne) as [Hser Hlast].
  exists (last (snd (run jumping_jacks_step self samples)) []).
  split.
  - unfold get_metrics. rewrite C. cbn [Py.truthy]. rewrite S.
    unfold jsonify. cbn [resp_metrics metrics]. rewrite Hser. reflexivity.
  - rewrite Hlast, Hfinal. cbn [count]. rewrite int_INR. reflexivity.
Qed.

Lemma selected_jumping_jacks_report_cycles_witness :
  let samples := [closed_sample] ++ flat_map cycle_samples [jack; jack] in
  let selected := fst (set_exercise one_jack (Some "jumping_jacks"%string)) in
  let g' := fst (generate_frames selected
                   (map (read_of "t5" (mkClock 5 5)) samples)) in
  jumping_jacks (pose_processor g') = mkRep (INR 2) 0
  /\ (samples <> [] ->
      exists record,
        get_metrics g' "t6" =
        Answer (mkMetricsResp (Some "jumping_jacks"%string) record
                              (Some "t6"%string))
        /\ metric record "count" = Some (MInt 2)).
Proof.
  apply (selected_jumping_jacks_report_cycles one_jack "t5" "t6" (mkClock 5 5)
           [closed_sample] [jack; jack]).
  - unfold jj_closed. cbn [forallb]. rewrite jj_closed_example. reflexivity.
  - repeat constructor; apply jack_is_cycle.
Defined.

End EndToEnd.

(** ** Edge cases *)

Section Edges.

Import PoseProcessor Planar App Examples.

(** X25: a first point that coincides with the vertex is treated as if it
    lay to the right of the vertex: [calculate_angle b b c] is the angle
    between the ray from [b] to [c] and the positive x axis. *)
Theorem calculate_angle_coincident_first (b c : Point) :
  calculate_angle b b c = calculate_angle (fst b + 1, snd b) b c.
Proof.
  unfold calculate_angle. cbn [fst snd].
  rewrite (arctan2_origin (snd b - snd b) (fst b - fst b)) by lra.
  rewrite (arctan2_axis_pos (snd b - snd b) (fst b + 1 - fst b)) by lra.
  reflexivity.
Qed.

(** X26: right after a selection with a non-empty name, [get_metrics]
    goes by what is stored under that name: it answers with the record
    of the last frame ever processed for it, even from before the
    selection reset its counters, raises [TypeError] when that record
    cannot be serialised, and answers with no exercise and an empty
    record when no frame was ever processed for it. *)
Theorem get_metrics_after_selection (g : Globals) (e now : string) :
  e <> EmptyString ->
  get_metrics (fst (set_exercise g (Some e))) now =
  match session_exercises g e with
  | Some entry =>
      if serialisable (metrics entry)
      then Answer (mkMetricsResp (Some e) (metrics entry) (Some now))
      else TypeError
  | None => Answer (mkMetricsResp None [] None)
  end.
Proof.
  intros Hne. unfold get_metrics, set_exercise.
  cbn [fst current_exercise session_exercises].
  rewrite (truthy_nonempty e Hne).
  destruct (session_exercises g e); reflexivity.
Qed.

(** After one counted jumping jack, selecting jumping jacks again resets
    the counter and still serves the record with [count] 1. *)
Lemma get_metrics_after_selection_witness :
  get_metrics (fst (set_exercise one_jack (Some "jumping_jacks"%string))) "t3" =
  match session_exercises one_jack "jumping_jacks" with
  | Some entry =>
      if serialisable (metrics entry)
      then Answer (mkMetricsResp (Some "jumping_jacks"%string) (metrics entry)
                                 (Some "t3"%string))
      else TypeError
  | None => Answer (mkMetricsResp None [] None)
  end.
Proof.
  apply (get_metrics_after_selection one_jack "jumping_jacks" "t3"). discriminate.
Defined.

End Edges.
